(** * Credential lifecycle of the VM infrastructure service

    A shallow embedding of the two Go packages of the repository,
    [ssh_config] (certificate and root-credential managers talking to the
    vSphere control plane) and [models] (the GORM entities), followed by the
    properties of the specification that were checked against them.

    Go values are modelled as follows.
    - A pointer that may be nil is an [option]; dereferencing it is the
      action [deref], which panics on [None].
    - A function returning [(T, error)] returns a pair whose second
      component is [option error] ([None] is Go's nil error).
    - A function body is a computation in [GoM]: it threads the state of
      the outside world and either returns or panics.  Deferred calls run
      on both exits.
    - The control plane, the random source and the hashing primitive are
      external: they are fields of an environment record, and every
      theorem quantifies over the environment. *)

From Stdlib Require Import ZArith NArith List String Ascii Bool Lia.
From Stdlib.Strings Require Import Byte.
Import ListNotations.
Local Open Scope string_scope.
Local Open Scope Z_scope.

(* ------------------------------------------------------------------ *)
(** ** The Go runtime: outcomes, panics, defer *)

Module Go.

(** Go's [error] interface.  [errors_New] is [errors.New]; [Fault] is an
    error value handed back by a library or by the control plane. *)
Inductive error : Type :=
| errors_New (text : string)
| Fault (text : string).

(** The [Error()] method. *)
Definition Error (e : error) : string :=
  match e with
  | errors_New text => text
  | Fault text => text
  end.

Inductive PanicValue : Type :=
| nil_pointer_dereference
(* panic(message) *)
| panic_message (message : string).

Inductive Outcome (A : Type) : Type :=
| Returned (a : A)
| Panicked (p : PanicValue).
Arguments Returned {A} a.
Arguments Panicked {A} p.

(** A computation over a world of type [W]. *)
Definition GoM (W A : Type) : Type := W -> Outcome A * W.

Definition ret {W A} (a : A) : GoM W A := fun w => (Returned a, w).

Definition bind {W A B} (c : GoM W A) (k : A -> GoM W B) : GoM W B :=
  fun w =>
    match c w with
    | (Returned a, w') => k a w'
    | (Panicked p, w') => (Panicked p, w')
    end.

Definition panic {W A} (p : PanicValue) : GoM W A := fun w => (Panicked p, w).

(** [*p] for a pointer [p]. *)
Definition deref {W A} (p : option A) : GoM W A :=
  match p with
  | Some a => ret a
  | None => panic nil_pointer_dereference
  end.

(** [defer d(); body]: [d] runs when [body] returns and when it panics. *)
Definition defer {W A} (d : GoM W unit) (body : GoM W A) : GoM W A :=
  fun w =>
    match body w with
    | (o, w') => (o, snd (d w'))
    end.

Definition modify {W} (f : W -> W) : GoM W unit := fun w => (Returned tt, f w).

Definition IsReturned {A} (o : Outcome A) : Prop :=
  match o with
  | Returned _ => True
  | Panicked _ => False
  end.

End Go.

Declare Scope go_scope.
Delimit Scope go_scope with go.
Notation "x <- c ;; k" := (Go.bind c (fun x => k))
  (at level 61, c at next level, right associativity) : go_scope.
Notation "' pat <- c ;; k" := (Go.bind c (fun x => match x with pat => k end))
  (at level 61, pat pattern, c at next level, right associativity) : go_scope.
Notation "c ;;; k" := (Go.bind c (fun _ => k))
  (at level 61, right associativity) : go_scope.

(* ------------------------------------------------------------------ *)
(** ** Packages [time] and [context] *)

Module time.

(** [time.Duration] counts nanoseconds. *)
Definition Duration : Type := Z.
Definition Nanosecond : Duration := 1.
Definition Microsecond : Duration := 1000 * Nanosecond.
Definition Millisecond : Duration := 1000 * Microsecond.
Definition Second : Duration := 1000 * Millisecond.
Definition Minute : Duration := 60 * Second.

End time.

Module context.

(** A context is the chain of timeouts it was derived with. *)
Inductive Context : Type :=
| Background
| WithTimeout_ctx (parent : Context) (timeout : time.Duration).

(** Time a call under the context may take before it is cancelled, counted
    from the creation of the outermost derived context; [None] when the
    context never expires. *)
Fixpoint bound (ctx : Context) : option time.Duration :=
  match ctx with
  | Background => None
  | WithTimeout_ctx parent timeout =>
      match bound parent with
      | None => Some timeout
      | Some b => Some (Z.min b timeout)
      end
  end.

End context.

(* ------------------------------------------------------------------ *)
(** ** The govmomi packages the managers use *)

Module types.

Record ManagedObjectReference : Type := mkRef {
  Type_ : string;
  Value : string;
}.

(** [types.NewReference(r)] returns a pointer to a copy of [r]. *)
Definition NewReference (r : ManagedObjectReference) : option ManagedObjectReference :=
  Some r.

Record NamePasswordAuthentication : Type := mkNamePasswordAuthentication {
  InteractiveSession : bool;
  Username : string;
  Password : string;
}.

End types.

Module vim25.

Record ServiceContent_t : Type := mkServiceContent {
  RootFolder : types.ManagedObjectReference;
}.

Record Client : Type := mkClient {
  ServiceContent : ServiceContent_t;
}.

End vim25.

Module object.

(** An [object.VirtualMachine]: its managed-object reference and the value
    its [Name()] method reports. *)
Record VirtualMachine : Type := mkVirtualMachine {
  Reference : types.ManagedObjectReference;
  Name : string;
}.

Record HostSystem : Type := mkHostSystem {
  HostSystem_Reference : types.ManagedObjectReference;
}.

Record HostCertificateManager : Type := mkHostCertificateManager {
  Client : vim25.Client;
  Self : types.ManagedObjectReference;
  Host : types.ManagedObjectReference;
}.

Definition NewHostCertificateManager (c : vim25.Client)
  (ref host : types.ManagedObjectReference) : HostCertificateManager :=
  mkHostCertificateManager c ref host.

(** What [CertificateInfo] reads back; [Subject] is the distinguished name
    of the installed certificate. *)
Record HostCertificateInfo : Type := mkHostCertificateInfo {
  Issuer : string;
  Subject : string;
  Status : string;
}.

End object.

Module mo.

Import Go.

(** The kind, in the sense of [reflect.Kind], of what a destination [dst]
    points to. *)
Inductive Kind : Type := Struct | Slice | Interface | Ptr | Other.

(** [mo.LoadObjectContent(content, dst)], which [property.Collector]
    calls once its read has succeeded.  The destination must point to a
    struct, an interface or a slice; for any other the loader panics with
    "unexpected type" before it looks at the content.  What the loader
    does with an accepted destination is not followed further: the
    repository passes none. *)
Definition LoadObjectContent {W} (dst : Kind) : GoM W (option error) :=
  match dst with
  | Struct | Slice | Interface => ret None
  | Ptr | Other => panic (panic_message "unexpected type")
  end.

End mo.

(* ------------------------------------------------------------------ *)
(** ** Package [uuid] *)

Module uuid.

(** A UUID is an array of 16 bytes. *)
Definition UUID : Type := list byte.

Definition hextable : string := "0123456789abcdef".

Definition hexdigit (n : N) : ascii :=
  match String.get (N.to_nat n) hextable with
  | Some c => c
  | None => "0"%char
  end.

(** [hex.Encode]: two lower-case digits per byte, high nibble first. *)
Fixpoint hex_Encode (src : list byte) : string :=
  match src with
  | [] => EmptyString
  | b :: rest =>
      let n := Byte.to_N b in
      String (hexdigit (N.shiftr n 4))
        (String (hexdigit (N.land n 15)) (hex_Encode rest))
  end.

Definition slice {A} (l : list A) (lo hi : nat) : list A :=
  firstn (hi - lo) (skipn lo l).

(** [UUID.String]: xxxxxxxx-xxxx-xxxx-xxxx-xxxxxxxxxxxx. *)
Definition String_ (u : UUID) : string :=
  hex_Encode (slice u 0 4) ++ "-" ++
  hex_Encode (slice u 4 6) ++ "-" ++
  hex_Encode (slice u 6 8) ++ "-" ++
  hex_Encode (slice u 8 10) ++ "-" ++
  hex_Encode (slice u 10 16).

End uuid.

(* ------------------------------------------------------------------ *)
(** ** Package [zap]: the structured log sink *)

Module zap.

Inductive Level : Type := DebugLevel | InfoLevel | ErrorLevel.

Record Field : Type := mkField {
  Key : string;
  Str : string;
}.

(** [zap.Error(err)] and [zap.String(key, val)]. *)
Definition Error (err : Go.error) : Field := mkField "error" (Go.Error err).
Definition String_ (key val : string) : Field := mkField key val.

Record Entry : Type := mkEntry {
  EntryLevel : Level;
  Message : string;
  Fields : list Field;
}.

End zap.

(* ------------------------------------------------------------------ *)
(** ** Package [ssh_config] *)

Module ssh_config.

Import Go.

(** Conversions [[]byte(s)] and [string(b)]. *)
Definition bytes_of (s : string) : list byte := list_byte_of_string s.
Definition string_of (b : list byte) : string := string_of_list_byte b.

(** What leaves the process: contexts created and cancelled, and the
    calls made to the control plane, each with the context it ran under. *)
Inductive Event : Type :=
| EvWithTimeout (ctx : context.Context)
| EvCancel (ctx : context.Context)
| EvHostSystem (ctx : context.Context) (vm : types.ManagedObjectReference)
| EvCertificateInfo (ctx : context.Context) (m : object.HostCertificateManager)
| EvInstallServerCertificate (ctx : context.Context)
    (m : object.HostCertificateManager) (cert : string)
| EvGenerateCertificateSigningRequestByDn (ctx : context.Context)
    (m : object.HostCertificateManager) (distinguishedName : string)
| EvRetrieveOne (ctx : context.Context) (obj : types.ManagedObjectReference)
    (ps : list string).

Definition Event_ctx (ev : Event) : context.Context :=
  match ev with
  | EvWithTimeout ctx | EvCancel ctx | EvHostSystem ctx _
  | EvCertificateInfo ctx _ | EvInstallServerCertificate ctx _ _
  | EvGenerateCertificateSigningRequestByDn ctx _ _
  | EvRetrieveOne ctx _ _ => ctx
  end.

(** The external collaborators.  [S] is their state (the inventory and the
    certificates of the hosts, the random source); every call may read and
    change it.  The result shapes are those of the Go signatures. *)
Record Env (S : Type) : Type := mkEnv {
  (* object.VirtualMachine.HostSystem(ctx) *)
  rpc_HostSystem : context.Context -> object.VirtualMachine ->
    S -> (option object.HostSystem * option error) * S;
  (* object.HostCertificateManager.CertificateInfo(ctx) *)
  rpc_CertificateInfo : context.Context -> object.HostCertificateManager ->
    S -> (option object.HostCertificateInfo * option error) * S;
  (* object.HostCertificateManager.InstallServerCertificate(ctx, cert) *)
  rpc_InstallServerCertificate : context.Context ->
    object.HostCertificateManager -> string -> S -> option error * S;
  (* object.HostCertificateManager.GenerateCertificateSigningRequestByDn(ctx, dn) *)
  rpc_GenerateCertificateSigningRequestByDn : context.Context ->
    object.HostCertificateManager -> string -> S -> (string * option error) * S;
  (* the read property.Collector.RetrieveOne(ctx, obj, ps, dst) makes on the
     control plane, before the answer is loaded into dst *)
  rpc_RetrieveOne : context.Context -> types.ManagedObjectReference ->
    list string -> S -> option error * S;
  (* uuid.New() *)
  uuid_New : S -> uuid.UUID * S;
  (* bcrypt.GenerateFromPassword(password, cost) *)
  bcrypt_GenerateFromPassword : list byte -> Z ->
    S -> (list byte * option error) * S;
}.
Arguments rpc_HostSystem {S} _ _ _ _.
Arguments rpc_CertificateInfo {S} _ _ _ _.
Arguments rpc_InstallServerCertificate {S} _ _ _ _ _.
Arguments rpc_GenerateCertificateSigningRequestByDn {S} _ _ _ _ _.
Arguments rpc_RetrieveOne {S} _ _ _ _ _.
Arguments uuid_New {S} _ _.
Arguments bcrypt_GenerateFromPassword {S} _ _ _ _.

(** The world a manager runs in: the collaborators' state, what the global
    [Logger] has written, and the events so far (oldest first). *)
Record World (S : Type) : Type := mkWorld {
  remote : S;
  Logger : list zap.Entry;
  events : list Event;
}.
Arguments mkWorld {S} _ _ _.
Arguments remote {S} _.
Arguments Logger {S} _.
Arguments events {S} _.

Record SshRootCredentials : Type := mkSshRootCredentials {
  Username : string;
  Password : string;
}.

Definition NewSshRootCredentials (Username Password : string) : SshRootCredentials :=
  mkSshRootCredentials Username Password.

Record SshCertificateCredentials : Type := mkSshCertificateCredentials {
  FilePath : string;
  FileName : string;
  Content : list byte;
}.

Definition NewSshCertificateCredentials (Content : list byte) (FileName : string)
  : SshCertificateCredentials :=
  mkSshCertificateCredentials EmptyString FileName Content.

Record VirtualMachineSshCertificateManager : Type :=
  mkVirtualMachineSshCertificateManager {
  CertificateManager_Client : vim25.Client;
}.

Definition NewVirtualMachineSshCertificateManager (Client : vim25.Client) :=
  mkVirtualMachineSshCertificateManager Client.

Record VirtualMachineSshRootCredentialsManager : Type :=
  mkVirtualMachineSshRootCredentialsManager {
  RootCredentialsManager_Client : vim25.Client;
}.

Definition NewVirtualMachineSshRootCredentialsManager (Client : vim25.Client) :=
  mkVirtualMachineSshRootCredentialsManager Client.

Section Managers.

Context {S : Type} (env : Env S).

Local Open Scope go_scope.

Definition M (A : Type) : Type := GoM (World S) A.

Definition emit (ev : Event) : M unit :=
  modify (fun w => mkWorld (remote w) (Logger w) (events w ++ [ev])).

(** A call to a collaborator: the event is recorded, the collaborator's
    state is advanced. *)
Definition extern {A} (ev : Event) (f : S -> A * S) : M A :=
  fun w =>
    let '(a, s') := f (remote w) in
    (Returned a, mkWorld s' (Logger w) (events w ++ [ev])).

(** A library call that does not reach the control plane. *)
Definition library {A} (f : S -> A * S) : M A :=
  fun w =>
    let '(a, s') := f (remote w) in
    (Returned a, mkWorld s' (Logger w) (events w)).

Definition log (l : zap.Level) (msg : string) (fields : list zap.Field) : M unit :=
  modify (fun w =>
    mkWorld (remote w) (Logger w ++ [zap.mkEntry l msg fields]) (events w)).

Definition Logger_Error := log zap.ErrorLevel.
Definition Logger_Debug := log zap.DebugLevel.

(** [context.WithTimeout(parent, d)] yields the derived context and its
    cancel function. *)
Definition context_WithTimeout (parent : context.Context) (d : time.Duration)
  : M (context.Context * M unit) :=
  let ctx := context.WithTimeout_ctx parent d in
  emit (EvWithTimeout ctx) ;;; ret (ctx, emit (EvCancel ctx)).

Definition VirtualMachine_HostSystem (vm : object.VirtualMachine)
  (ctx : context.Context) : M (option object.HostSystem * option error) :=
  extern (EvHostSystem ctx (object.Reference vm)) (rpc_HostSystem env ctx vm).

(** [HostSystem.Reference()] through a pointer. *)
Definition HostSystem_Reference (h : option object.HostSystem)
  : M types.ManagedObjectReference :=
  hs <- deref h ;; ret (object.HostSystem_Reference hs).

Definition Manager_CertificateInfo (m : object.HostCertificateManager)
  (ctx : context.Context) : M (option object.HostCertificateInfo * option error) :=
  extern (EvCertificateInfo ctx m) (rpc_CertificateInfo env ctx m).

Definition Manager_InstallServerCertificate (m : object.HostCertificateManager)
  (ctx : context.Context) (cert : string) : M (option error) :=
  extern (EvInstallServerCertificate ctx m cert)
    (rpc_InstallServerCertificate env ctx m cert).

Definition Manager_GenerateCertificateSigningRequestByDn
  (m : object.HostCertificateManager) (ctx : context.Context)
  (distinguishedName : string) : M (string * option error) :=
  extern (EvGenerateCertificateSigningRequestByDn ctx m distinguishedName)
    (rpc_GenerateCertificateSigningRequestByDn env ctx m distinguishedName).

(** [Collector.RetrieveOne(ctx, obj, ps, dst)]: the read on the control
    plane; its error is returned as it is, and an answer is loaded into
    [dst], of which only the kind of what it points to matters here. *)
Definition Collector_RetrieveOne (ctx : context.Context)
  (obj : types.ManagedObjectReference) (ps : list string) (dst : mo.Kind)
  : M (option error) :=
  err <- extern (EvRetrieveOne ctx obj ps) (rpc_RetrieveOne env ctx obj ps) ;;
  match err with
  | Some e => ret (Some e)
  | None => mo.LoadObjectContent dst
  end.

Definition when_err (e : option error) (k : error -> M unit) : M unit :=
  match e with
  | Some err => k err
  | None => ret tt
  end.

(** The managers are methods on pointers and take the machine by pointer;
    both are taken to be non-nil, as the claims are about calls on a
    manager and a machine. *)

(** ssh_config.go, lines 90-109.  [CertificateHostManager] is declared and
    never assigned.  The arguments of [NewHostCertificateManager] are
    evaluated here from left to right; Go leaves the order of the
    dereference and of [HostSystem.Reference()] open, and both end in the
    same run-time panic with nothing observable in between. *)
Definition GetSshPublicCertificate (this : VirtualMachineSshCertificateManager)
  (VirtualMachine : object.VirtualMachine) (SshKeyFileName : string)
  : M (option object.HostCertificateInfo * option error) :=
  let CertificateHostManager : option types.ManagedObjectReference := None in
  '(TimeoutContext, CancelFunc) <-
    context_WithTimeout context.Background (time.Second * 20) ;;
  defer CancelFunc (
    '(HostSystem, FindError) <-
      VirtualMachine_HostSystem VirtualMachine TimeoutContext ;;
    when_err FindError (fun err =>
      Logger_Error "Failed to Determine VM Server Host System" [zap.Error err]) ;;;
    ref <- deref CertificateHostManager ;;
    host <- HostSystem_Reference HostSystem ;;
    let Manager := object.NewHostCertificateManager
                     (CertificateManager_Client this) ref host in
    '(CertificateInfo, DownloadedFileError) <-
      Manager_CertificateInfo Manager TimeoutContext ;;
    match DownloadedFileError with
    | Some err =>
        Logger_Error "Failed to Download the Ssh Key File" [zap.Error err] ;;;
        ret (None, Some err)
    | None => ret (CertificateInfo, None)
    end).

(** ssh_config.go, lines 111-137. *)
Definition UploadSshKeys (this : VirtualMachineSshCertificateManager)
  (VirtualMachine : object.VirtualMachine) (Key : SshCertificateCredentials)
  : M (option error) :=
  '(TimeoutContext, CancelFunc) <-
    context_WithTimeout context.Background (time.Minute * 1) ;;
  defer CancelFunc (
    '(HostSystem, HostSystemError) <-
      VirtualMachine_HostSystem VirtualMachine TimeoutContext ;;
    match HostSystemError with
    | Some _ => ret (Some (errors_New "Failed to Get Host System Info"))
    | None =>
        ref <- deref (types.NewReference
                 (vim25.RootFolder (vim25.ServiceContent (CertificateManager_Client this)))) ;;
        host <- HostSystem_Reference HostSystem ;;
        let SshManager := object.NewHostCertificateManager
                            (CertificateManager_Client this) ref host in
        InstallationError <-
          Manager_InstallServerCertificate SshManager TimeoutContext
            (string_of (Content Key)) ;;
        match InstallationError with
        | None =>
            Logger_Debug "SSH Key has been Successfully Uploaded to the VM with Name: %s"
              [zap.String_ "Virtual Machine Name" (object.Name VirtualMachine)] ;;;
            ret None
        | Some _ =>
            Logger_Error "Failed to Upload SSH Key to the Remote VM's Host Machine" [] ;;;
            ret (Some (errors_New "Failed to Add SSH Support"))
        end
    end).

(** [fmt.Sprintf("VirtualMachine-%s", name)]. *)
Definition Sprintf_VirtualMachine (name : string) : string :=
  "VirtualMachine-" ++ name.

(** ssh_config.go, lines 139-162. *)
Definition GenerateSshKeys (this : VirtualMachineSshCertificateManager)
  (VirtualMachine : object.VirtualMachine)
  : M (option SshCertificateCredentials * option error) :=
  '(TimeoutContext, CancelFunc) <-
    context_WithTimeout context.Background (time.Minute * 1) ;;
  defer CancelFunc (
    '(HostSystem, HostSystemError) <-
      VirtualMachine_HostSystem VirtualMachine TimeoutContext ;;
    match HostSystemError with
    | Some _ => ret (None, Some (errors_New "Failed to Get OS Info"))
    | None =>
        ref <- deref (types.NewReference
                 (vim25.RootFolder (vim25.ServiceContent (CertificateManager_Client this)))) ;;
        host <- HostSystem_Reference HostSystem ;;
        let Manager := object.NewHostCertificateManager
                         (CertificateManager_Client this) ref host in
        let SSLCertificateDistinguishName :=
          Sprintf_VirtualMachine (object.Name VirtualMachine) in
        '(GeneratedCertificate, GenerationError) <-
          Manager_GenerateCertificateSigningRequestByDn Manager TimeoutContext
            SSLCertificateDistinguishName ;;
        ret (Some (NewSshCertificateCredentials
                     (bytes_of GeneratedCertificate) "ssh_key.pub"),
             GenerationError)
    end).

(** ssh_config.go, lines 193-198: the credentials the call builds before
    it reads anything.  The error of the hashing call is dropped, as in the
    source. *)
Definition SshCredentials_built : M types.NamePasswordAuthentication :=
  PasswordUuid <- library (uuid_New env) ;;
  '(GeneratedOsPassword, _) <-
    library (bcrypt_GenerateFromPassword env
               (bytes_of (uuid.String_ PasswordUuid)) 15) ;;
  ret (types.mkNamePasswordAuthentication false "root"
         (string_of GeneratedOsPassword)).

(** ssh_config.go, lines 188-214.  [property.DefaultCollector] only wraps
    the client, so the deferred cancel is in force for all that follows the
    creation of the context.  The destination [&VirtualMachine] is the
    address of the parameter, which is itself a pointer: it points to a
    pointer. *)
Definition GetSshRootCredentials (this : VirtualMachineSshRootCredentialsManager)
  (VirtualMachine : object.VirtualMachine)
  : M (option types.NamePasswordAuthentication * option error) :=
  SshCredentials <- SshCredentials_built ;;
  '(TimeoutContext, CancelFunc) <-
    context_WithTimeout context.Background (time.Second * 10) ;;
  defer CancelFunc (
    RetrieveError <-
      Collector_RetrieveOne TimeoutContext (object.Reference VirtualMachine)
        ["name"; "guest"] mo.Ptr ;;
    match RetrieveError with
    | Some err =>
        Logger_Debug "Failed to Get VirtualMachine Instance" [] ;;;
        ret (None, Some err)
    | None => ret (Some SshCredentials, None)
    end).

End Managers.

End ssh_config.

(* ------------------------------------------------------------------ *)
(** ** A simulated control plane

    A small in-memory stand-in for the collaborators, used to run the
    managers on concrete inputs. *)

Module Sim.

Import Go.

Fixpoint assoc (k : string) (l : list (string * string)) : option string :=
  match l with
  | [] => None
  | (k', v) :: rest => if String.eqb k k' then Some v else assoc k rest
  end.

Record State : Type := mkState {
  (* virtual machine -> host it runs on *)
  inventory : list (string * string);
  (* host -> subject of the certificate installed on it *)
  certificates : list (string * string);
  (* whether the certificate authority signs requests *)
  ca_accepts : bool;
  (* the identifiers the random source will hand out *)
  entropy : list uuid.UUID;
}.

Definition host_ref (h : string) : types.ManagedObjectReference :=
  types.mkRef "HostSystem" h.

Definition HostSystem (ctx : context.Context) (vm : object.VirtualMachine)
  (s : State) : (option object.HostSystem * option error) * State :=
  match assoc (types.Value (object.Reference vm)) (inventory s) with
  | Some h => ((Some (object.mkHostSystem (host_ref h)), None), s)
  | None => ((None, Some (Fault "VM doesn't have a HostSystem")), s)
  end.

Definition CertificateInfo (ctx : context.Context)
  (m : object.HostCertificateManager) (s : State)
  : (option object.HostCertificateInfo * option error) * State :=
  match assoc (types.Value (object.Host m)) (certificates s) with
  | Some subject =>
      ((Some (object.mkHostCertificateInfo "CN=sim-ca" subject "good"), None), s)
  | None => ((None, Some (Fault "no certificate installed")), s)
  end.

Definition InstallServerCertificate (ctx : context.Context)
  (m : object.HostCertificateManager) (cert : string) (s : State)
  : option error * State :=
  (None,
   mkState (inventory s)
     ((types.Value (object.Host m), cert) :: certificates s)
     (ca_accepts s) (entropy s)).

Definition GenerateCertificateSigningRequestByDn (ctx : context.Context)
  (m : object.HostCertificateManager) (dn : string) (s : State)
  : (string * option error) * State :=
  if ca_accepts s
  then (("CSR:" ++ dn, None), s)
  else ((EmptyString, Some (Fault "certificate authority rejected the request")), s).

Definition RetrieveOne (ctx : context.Context)
  (obj : types.ManagedObjectReference) (ps : list string) (s : State)
  : option error * State :=
  match assoc (types.Value obj) (inventory s) with
  | Some _ => (None, s)
  | None => (Some (Fault "managed object not found"), s)
  end.

Definition zero_uuid : uuid.UUID := repeat x00 16.

Definition New (s : State) : uuid.UUID * State :=
  match entropy s with
  | u :: rest => (u, mkState (inventory s) (certificates s) (ca_accepts s) rest)
  | [] => (zero_uuid, s)
  end.

(** A fixed string of the shape bcrypt produces: version, cost, then 53
    characters of salt and digest. *)
Definition fake_hash : string :=
  "$2a$15$" ++ "Nkd0a1PzWbXJ3pGQe9sU7." ++ "r5T2mYcLhV8oEwZq4iBxKfAjD6uR0yS".

Definition GenerateFromPassword (password : list byte) (cost : Z) (s : State)
  : (list byte * option error) * State :=
  ((list_byte_of_string fake_hash, None), s).

Definition env : ssh_config.Env State :=
  ssh_config.mkEnv State HostSystem CertificateInfo InstallServerCertificate
    GenerateCertificateSigningRequestByDn RetrieveOne New GenerateFromPassword.

Definition sample_uuid : uuid.UUID :=
  [ x12; x3e; x45; x67; xe8; x9b; x42; xd3;
    xa4; x56; x42; x66; x14; x17; x40; x00 ].

Definition datacenter (accepts : bool) : State :=
  mkState [("vm-101", "host-9")] [] accepts [sample_uuid].

Definition world (accepts : bool) : ssh_config.World State :=
  ssh_config.mkWorld (datacenter accepts) [] [].

Definition client : vim25.Client :=
  vim25.mkClient (vim25.mkServiceContent (types.mkRef "Folder" "group-d1")).

Definition certificates_manager :=
  ssh_config.NewVirtualMachineSshCertificateManager client.

Definition root_manager :=
  ssh_config.NewVirtualMachineSshRootCredentialsManager client.

(** A machine the inventory knows, and one it does not. *)
Definition web1 : object.VirtualMachine :=
  object.mkVirtualMachine (types.mkRef "VirtualMachine" "vm-101") "web-1".

Definition ghost : object.VirtualMachine :=
  object.mkVirtualMachine (types.mkRef "VirtualMachine" "vm-404") "ghost".

End Sim.

(* ------------------------------------------------------------------ *)
(** ** Package [gorm]: the statements the entities issue

    Only what [models] uses is modelled: a statement chain
    ([Clauses], [Model], [Unscoped], [Where]) finished by [Delete] or
    [Update], run against a table of rows.  The connection is taken to be
    healthy, so a statement fails only for the reasons the ORM itself
    reports. *)

Module gorm.

Import Go.

Definition Time : Type := Z.

(** The embedded [gorm.Model]. *)
Record Model : Type := mkModel {
  ID : N;
  CreatedAt : Time;
  UpdatedAt : Time;
  DeletedAt : option Time;
}.

(** The fields of [*gorm.DB] a caller reads after a statement. *)
Record DB : Type := mkDB {
  Error : option error;
  RowsAffected : Z;
}.

Definition ErrMissingWhereClause : error := errors_New "WHERE conditions required".

(** A value bound to a column. *)
Inductive Value : Type :=
| Bytes (b : list byte)
| Text (s : string)
| Int (z : Z).

Definition Value_eqb (a b : Value) : bool :=
  match a, b with
  | Bytes x, Bytes y => String.eqb (string_of_list_byte x) (string_of_list_byte y)
  | Text x, Text y => String.eqb x y
  | Int x, Int y => Z.eqb x y
  | _, _ => false
  end.

(** [column = value]. *)
Record Cond : Type := mkCond {
  column : string;
  operand : Value;
}.

Inductive Clause : Type :=
| OnConflict_DoNothing
| OnConflict_DoUpdates (columns : list string).

Record Statement : Type := mkStatement {
  Clauses_ : list Clause;
  Unscoped_ : bool;
  Wheres : list Cond;
  (* conditions contributed by the primary key of the [Model] value *)
  ModelIdentity : list Cond;
}.

(** What the ORM knows of an entity type [R] stored in a database [D]. *)
Class Schema (D R : Type) : Type := mkSchema {
  Model_of : R -> Model;
  with_Model : Model -> R -> R;
  (* the table of the entity *)
  rows : D -> list R;
  with_rows : list R -> D -> D;
  (* the non-zero primary-key fields of a value, as conditions *)
  identity : R -> list Cond;
  (* reading a column by its database name *)
  read : string -> R -> option Value;
  (* assigning a field by its name; [None] when the field does not exist
     or cannot hold the value *)
  assign : string -> Value -> option (R -> R);
  (* the clock of the database session and its advance *)
  now : D -> Time;
  tick : D -> D;
}.

(** The global handle [Database]: an empty chain. *)
Definition Database : Statement := mkStatement [] false [] [].

Definition Clauses (c : Clause) (st : Statement) : Statement :=
  mkStatement (Clauses_ st ++ [c]) (Unscoped_ st) (Wheres st) (ModelIdentity st).

Definition Unscoped (st : Statement) : Statement :=
  mkStatement (Clauses_ st) true (Wheres st) (ModelIdentity st).

Definition Where (col : string) (arg : Value) (st : Statement) : Statement :=
  mkStatement (Clauses_ st) (Unscoped_ st) (Wheres st ++ [mkCond col arg])
    (ModelIdentity st).

Section Statements.

Context {D R : Type} {schema : Schema D R}.

(** [.Model(value)]: only the primary key of [value] matters later. *)
Definition Model_ (value : R) (st : Statement) : Statement :=
  mkStatement (Clauses_ st) (Unscoped_ st) (Wheres st) (identity value).

Definition holds (c : Cond) (r : R) : bool :=
  match read (column c) r with
  | Some v => Value_eqb v (operand c)
  | None => false
  end.

Definition matches (cs : list Cond) (r : R) : bool :=
  forallb (fun c => holds c r) cs.

Definition live (r : R) : bool :=
  match DeletedAt (Model_of r) with
  | None => true
  | Some _ => false
  end.

Definition count (p : R -> bool) (t : list R) : Z :=
  Z.of_nat (List.length (filter p t)).

Definition mark_deleted (at_ : Time) (r : R) : R :=
  let m := Model_of r in
  with_Model (mkModel (ID m) (CreatedAt m) (UpdatedAt m) (Some at_)) r.

Definition touch (at_ : Time) (r : R) : R :=
  let m := Model_of r in
  with_Model (mkModel (ID m) (CreatedAt m) at_ (DeletedAt m)) r.

(** [.Delete(dest)].  The conditions are the primary key of [dest], that of
    the model and the explicit ones; without any (a value whose primary
    key is zero has none) the ORM refuses the statement with
    [ErrMissingWhereClause].  A scoped delete stamps [deleted_at] on the
    live rows that match, an unscoped one removes the rows; a statement
    that matches no row is not an error.  Conflict clauses belong to
    inserts and are not rendered. *)
Definition Delete (st : Statement) (dest : R) : GoM D DB :=
  fun d =>
    let conds := (identity dest ++ ModelIdentity st ++ Wheres st)%list in
    match conds with
    | [] => (Returned (mkDB (Some ErrMissingWhereClause) 0), d)
    | _ :: _ =>
        let t := rows d in
        if Unscoped_ st then
          let hit := matches conds in
          (Returned (mkDB None (count hit t)),
           tick (with_rows (filter (fun r => negb (hit r)) t) d))
        else
          let hit := fun r => matches conds r && live r in
          (Returned (mkDB None (count hit t)),
           tick (with_rows
                   (map (fun r => if hit r then mark_deleted (now d) r else r) t) d))
    end.

(** [.Update(column, value)] on a chain whose model is of type [R]: the
    matching rows (the live ones only, unless the chain is unscoped) get
    the column assigned and [updated_at] stamped. *)
Definition Update (st : Statement) (col : string) (value : Value) : GoM D DB :=
  fun d =>
    let conds := (ModelIdentity st ++ Wheres st)%list in
    match conds with
    | [] => (Returned (mkDB (Some ErrMissingWhereClause) 0), d)
    | _ :: _ =>
        let t := rows d in
        let hit := fun r =>
          matches conds r && (Unscoped_ st || live r) in
        match assign col value with
        | Some write =>
            (Returned (mkDB None (count hit t)),
             tick (with_rows
                     (map (fun r => if hit r then touch (now d) (write r) else r) t)
                     d))
        | None =>
            (Returned (mkDB (Some (Fault ("cannot assign column " ++ col))) 0), d)
        end
    end.

End Statements.

End gorm.

(* ------------------------------------------------------------------ *)
(** ** Package [models] *)

Module models.

Import Go.

Record Customer : Type := mkCustomer {
  Customer_Model : gorm.Model;
  Username : string;
  Email : string;
  Password : string;
}.

Record VirtualMachine : Type := mkVirtualMachine {
  VirtualMachine_Model : gorm.Model;
  OwnerId : string;
  VirtualMachineName : string;
  ItemPath : string;
  IPAddress : string;
}.

Record SSHPublicKey : Type := mkSSHPublicKey {
  SSHPublicKey_Model : gorm.Model;
  Key : string;
  Filename : string;
  VirtualMachineID : Z;
}.

Definition zero_Model : gorm.Model := gorm.mkModel 0 0 0 None.

(** The zero values [VirtualMachine{}] and [SSHPublicKey{}]. *)
Definition zero_VirtualMachine : VirtualMachine :=
  mkVirtualMachine zero_Model EmptyString EmptyString EmptyString EmptyString.

Definition zero_SSHPublicKey : SSHPublicKey :=
  mkSSHPublicKey zero_Model EmptyString EmptyString 0.

Definition NewVirtualMachine (OwnerId VirtualMachineName ItemPath IPAddress : string)
  : VirtualMachine :=
  mkVirtualMachine zero_Model OwnerId VirtualMachineName ItemPath IPAddress.

Definition NewSshPublicKey (KeyContent : list byte) (Filename : string) : SSHPublicKey :=
  mkSSHPublicKey zero_Model (string_of_list_byte KeyContent) Filename 0.

(** The tables behind the global [Database] handle and the session clock. *)
Record Tables : Type := mkTables {
  clock : gorm.Time;
  customers : list Customer;
  virtual_machines : list VirtualMachine;
  ssh_public_keys : list SSHPublicKey;
}.

Definition advance (d : Tables) : Tables :=
  mkTables (clock d + 1) (customers d) (virtual_machines d) (ssh_public_keys d).

Definition id_cond (id : N) : list gorm.Cond :=
  if N.eqb id 0 then [] else [gorm.mkCond "id" (gorm.Int (Z.of_N id))].

#[export] Instance VirtualMachine_Schema : gorm.Schema Tables VirtualMachine := {|
  gorm.Model_of := VirtualMachine_Model;
  gorm.with_Model := fun m r =>
    mkVirtualMachine m (OwnerId r) (VirtualMachineName r) (ItemPath r) (IPAddress r);
  gorm.rows := virtual_machines;
  gorm.with_rows := fun t d =>
    mkTables (clock d) (customers d) t (ssh_public_keys d);
  gorm.identity := fun r => id_cond (gorm.ID (VirtualMachine_Model r));
  gorm.read := fun c r =>
    if String.eqb c "id" then Some (gorm.Int (Z.of_N (gorm.ID (VirtualMachine_Model r))))
    else if String.eqb c "owner_id" then Some (gorm.Text (OwnerId r))
    else if String.eqb c "virtual_machine_name" then Some (gorm.Text (VirtualMachineName r))
    else if String.eqb c "item_path" then Some (gorm.Text (ItemPath r))
    else if String.eqb c "ip_address" then Some (gorm.Text (IPAddress r))
    else None;
  gorm.assign := fun f v =>
    match v with
    | gorm.Text s =>
        (* OwnerId, ItemPath and IPAddress carry the tag <-:create *)
        if String.eqb f "VirtualMachineName"
        then Some (fun r => mkVirtualMachine (VirtualMachine_Model r) (OwnerId r) s
                              (ItemPath r) (IPAddress r))
        else if String.eqb f "OwnerId" || String.eqb f "ItemPath"
                || String.eqb f "IPAddress"
        then Some (fun r => r)
        else None
    | _ => None
    end;
  gorm.now := clock;
  gorm.tick := advance;
|}.

Definition text_of (v : gorm.Value) : option string :=
  match v with
  | gorm.Bytes b => Some (string_of_list_byte b)
  | gorm.Text s => Some s
  | gorm.Int _ => None
  end.

#[export] Instance SSHPublicKey_Schema : gorm.Schema Tables SSHPublicKey := {|
  gorm.Model_of := SSHPublicKey_Model;
  gorm.with_Model := fun m r =>
    mkSSHPublicKey m (Key r) (Filename r) (VirtualMachineID r);
  gorm.rows := ssh_public_keys;
  gorm.with_rows := fun t d =>
    mkTables (clock d) (customers d) (virtual_machines d) t;
  gorm.identity := fun r =>
    (id_cond (gorm.ID (SSHPublicKey_Model r)) ++
     (if Z.eqb (VirtualMachineID r) 0 then []
      else [gorm.mkCond "virtual_machine_id" (gorm.Int (VirtualMachineID r))]))%list;
  gorm.read := fun c r =>
    if String.eqb c "id" then Some (gorm.Int (Z.of_N (gorm.ID (SSHPublicKey_Model r))))
    else if String.eqb c "key" then Some (gorm.Text (Key r))
    else if String.eqb c "filename" then Some (gorm.Text (Filename r))
    else if String.eqb c "virtual_machine_id" then Some (gorm.Int (VirtualMachineID r))
    else None;
  gorm.assign := fun f v =>
    if String.eqb f "Key" then
      match text_of v with
      | Some s => Some (fun r => mkSSHPublicKey (SSHPublicKey_Model r) s
                                   (Filename r) (VirtualMachineID r))
      | None => None
      end
    else if String.eqb f "Filename" then
      match text_of v with
      | Some s => Some (fun r => mkSSHPublicKey (SSHPublicKey_Model r) (Key r) s
                                   (VirtualMachineID r))
      | None => None
      end
    else if String.eqb f "VirtualMachineID" then
      match v with
      | gorm.Int z => Some (fun r => mkSSHPublicKey (SSHPublicKey_Model r) (Key r)
                                       (Filename r) z)
      | _ => None
      end
    else None;
  gorm.now := clock;
  gorm.tick := advance;
|}.

Local Open Scope go_scope.

(** models.go, lines 131-136. *)
Definition VirtualMachine_Delete (this : VirtualMachine)
  : GoM Tables (gorm.DB * option error) :=
  Deleted <-
    gorm.Delete (gorm.Clauses gorm.OnConflict_DoNothing gorm.Database) this ;;
  _ <- gorm.Delete
         (gorm.Model_ zero_VirtualMachine
            (gorm.Unscoped
               (gorm.Model_ zero_VirtualMachine gorm.Database)))
         this ;;
  ret (Deleted, gorm.Error Deleted).

(** models.go, lines 158-163. *)
Definition SSHPublicKey_Update (this : SSHPublicKey) (NewSshKey : list byte)
  (Filename : list string) : GoM Tables (gorm.DB * option error) :=
  Gorm <-
    gorm.Update (R := SSHPublicKey)
      (gorm.Where "virtual_machine_id" (gorm.Int (VirtualMachineID this))
         (gorm.Unscoped (gorm.Model_ zero_SSHPublicKey gorm.Database)))
      "Key" (gorm.Bytes NewSshKey) ;;
  ret (Gorm, gorm.Error Gorm).

(** The zero value [Customer{}]. *)
Definition zero_Customer : Customer :=
  mkCustomer zero_Model EmptyString EmptyString EmptyString.

#[export] Instance Customer_Schema : gorm.Schema Tables Customer := {|
  gorm.Model_of := Customer_Model;
  gorm.with_Model := fun m r => mkCustomer m (Username r) (Email r) (Password r);
  gorm.rows := customers;
  gorm.with_rows := fun t d =>
    mkTables (clock d) t (virtual_machines d) (ssh_public_keys d);
  gorm.identity := fun r => id_cond (gorm.ID (Customer_Model r));
  gorm.read := fun c r =>
    if String.eqb c "id" then Some (gorm.Int (Z.of_N (gorm.ID (Customer_Model r))))
    else if String.eqb c "username" then Some (gorm.Text (Username r))
    else if String.eqb c "email" then Some (gorm.Text (Email r))
    else if String.eqb c "password" then Some (gorm.Text (Password r))
    else None;
  gorm.assign := fun f v =>
    match v with
    | gorm.Text s =>
        (* Username and Email carry the tag <-:create *)
        if String.eqb f "Password"
        then Some (fun r => mkCustomer (Customer_Model r) (Username r) (Email r) s)
        else if String.eqb f "Username" || String.eqb f "Email"
        then Some (fun r => r)
        else None
    | _ => None
    end;
  gorm.now := clock;
  gorm.tick := advance;
|}.

(** models.go, lines 88-93. *)
Definition Customer_Delete (this : Customer)
  : GoM Tables (gorm.DB * option error) :=
  DeletedCustomer <-
    gorm.Delete (gorm.Model_ zero_Customer gorm.Database) this ;;
  _ <- gorm.Delete (gorm.Unscoped (gorm.Model_ zero_Customer gorm.Database)) this ;;
  ret (DeletedCustomer, gorm.Error DeletedCustomer).

End models.

(* ------------------------------------------------------------------ *)
(** ** Sample rows *)

Module Rows.

Definition web1 : models.VirtualMachine :=
  models.mkVirtualMachine (gorm.mkModel 7 100 100 None)
    "alice" "web-1" "/dc/vm/web-1" "10.0.0.5".

Definition db1 : models.VirtualMachine :=
  models.mkVirtualMachine (gorm.mkModel 8 101 101 None)
    "bob" "db-1" "/dc/vm/db-1" "10.0.0.6".

Definition key7 : models.SSHPublicKey :=
  models.mkSSHPublicKey (gorm.mkModel 1 110 110 None) "ssh-rsa AAAA" "id_rsa.pub" 7.

Definition key8 : models.SSHPublicKey :=
  models.mkSSHPublicKey (gorm.mkModel 2 111 111 (Some 120)) "ssh-rsa BBBB" "old.pub" 8.

Definition tables : models.Tables :=
  models.mkTables 200 [] [web1; db1] [key7; key8].

Definition alice : models.Customer :=
  models.mkCustomer (gorm.mkModel 3 90 90 None) "alice" "alice@x.com" "$2a$14$hash".

Definition bob : models.Customer :=
  models.mkCustomer (gorm.mkModel 4 91 91 (Some 95)) "bob" "bob@x.com" "$2a$14$hash".

Definition registry : models.Tables :=
  models.mkTables 200 [alice; bob] [web1; db1] [key7; key8].

End Rows.

(* ------------------------------------------------------------------ *)
(** ** Control planes that fail

    Variants of the simulated control plane: a host that turns the
    certificate down, and a hashing primitive that reports an error. *)

Module Faulty.

Import Go.

Definition InstallRefused (ctx : context.Context)
  (m : object.HostCertificateManager) (cert : string) (s : Sim.State)
  : option error * Sim.State :=
  (Some (Fault "host refused the certificate"), s).

Definition refusing_env : ssh_config.Env Sim.State :=
  ssh_config.mkEnv Sim.State Sim.HostSystem Sim.CertificateInfo InstallRefused
    Sim.GenerateCertificateSigningRequestByDn Sim.RetrieveOne Sim.New
    Sim.GenerateFromPassword.

(** bcrypt hands back no digest along with its error. *)
Definition HashFails (password : list byte) (cost : Z) (s : Sim.State)
  : (list byte * option error) * Sim.State :=
  (([], Some (Fault "crypto/bcrypt: hashing failed")), s).

Definition unhashing_env : ssh_config.Env Sim.State :=
  ssh_config.mkEnv Sim.State Sim.HostSystem Sim.CertificateInfo
    Sim.InstallServerCertificate Sim.GenerateCertificateSigningRequestByDn
    Sim.RetrieveOne Sim.New HashFails.

End Faulty.

(* ------------------------------------------------------------------ *)
(** ** Vocabulary of the statements *)

Module Props.

Import Go.

(** The context an operation creates from a timeout. *)
Definition deadline (d : time.Duration) : context.Context :=
  context.WithTimeout_ctx context.Background d.

Definition seconds (n : Z) : time.Duration := n * 1000000000.

(** The entry [GetSshPublicCertificate] writes when the host system of the
    machine is not found. *)
Definition host_not_found_entry (err : error) : zap.Entry :=
  zap.mkEntry zap.ErrorLevel "Failed to Determine VM Server Host System"
    [zap.Error err].

(** The result is an error handed to the caller, without a value. *)
Definition returns_error {A W} (r : Outcome (option A * option error) * W) : Prop :=
  exists err, fst r = Returned (None, Some err).

(** The result carries a value and an error at once. *)
Definition returns_both {A W} (r : Outcome (option A * option error) * W) : Prop :=
  exists a err, fst r = Returned (Some a, Some err).

(** [c], started in any world, creates a context bounded by [d], makes all
    its control-plane calls under it and cancels it before leaving. *)
Definition runs_under {S A} (d : time.Duration) (c : ssh_config.M (S := S) A) : Prop :=
  forall w, exists calls,
    ssh_config.events (snd (c w)) =
      (ssh_config.events w ++
       ssh_config.EvWithTimeout (deadline d) :: calls ++
       [ssh_config.EvCancel (deadline d)])%list /\
    Forall (fun ev => ssh_config.Event_ctx ev = deadline d) calls /\
    context.bound (deadline d) = Some d.

(** The manager both generation and installation build: rooted at the
    client's root folder, for the host the machine runs on. *)
Definition root_manager_for (this : ssh_config.VirtualMachineSshCertificateManager)
  (h : object.HostSystem) : object.HostCertificateManager :=
  object.NewHostCertificateManager (ssh_config.CertificateManager_Client this)
    (vim25.RootFolder
       (vim25.ServiceContent (ssh_config.CertificateManager_Client this)))
    (object.HostSystem_Reference h).

Section RootSecret.

Import ssh_config.

Context {S : Type} (env : Env S).



(** The digest the hashing primitive makes of it at cost 15. *)
Definition hashed_secret (w : World S) : list byte :=
  let '(u, s1) := uuid_New env (remote w) in
  fst (fst (bcrypt_GenerateFromPassword env (bytes_of (uuid.String_ u)) 15 s1)).

(** The answer of the control plane to the metadata read of the call. *)
Definition metadata_retrieval (vm : object.VirtualMachine) (w : World S)
  : option error :=
  let '(u, s1) := uuid_New env (remote w) in
  let '(_, s2) := bcrypt_GenerateFromPassword env (bytes_of (uuid.String_ u)) 15 s1 in
  fst (rpc_RetrieveOne env (deadline (time.Second * 10)) (object.Reference vm)
         ["name"; "guest"] s2).


End RootSecret.

(** A row of the machine [this] denotes: same primary key. *)
Definition same_id (this r : models.VirtualMachine) : bool :=
  N.eqb (gorm.ID (models.VirtualMachine_Model r))
        (gorm.ID (models.VirtualMachine_Model this)).

(** A key row of the machine [this] belongs to. *)
Definition same_machine (this r : models.SSHPublicKey) : bool :=
  Z.eqb (models.VirtualMachineID r) (models.VirtualMachineID this).

(** A key row after a rotation at time [at_]: new content, new
    [UpdatedAt]; everything else as before. *)
Definition rotated (at_ : gorm.Time) (content : list byte) (r : models.SSHPublicKey)
  : models.SSHPublicKey :=
  let m := models.SSHPublicKey_Model r in
  models.mkSSHPublicKey
    (gorm.mkModel (gorm.ID m) (gorm.CreatedAt m) at_ (gorm.DeletedAt m))
    (string_of_list_byte content) (models.Filename r) (models.VirtualMachineID r).

(** What [UploadSshKeys] writes to the log after the installation call. *)
Definition upload_done_entry (vm : object.VirtualMachine) : zap.Entry :=
  zap.mkEntry zap.DebugLevel
    "SSH Key has been Successfully Uploaded to the VM with Name: %s"
    [zap.String_ "Virtual Machine Name" (object.Name vm)].

Definition upload_failed_entry : zap.Entry :=
  zap.mkEntry zap.ErrorLevel
    "Failed to Upload SSH Key to the Remote VM's Host Machine" [].

(** What [GetSshRootCredentials] writes when the metadata read fails. *)
Definition retrieve_failed_entry : zap.Entry :=
  zap.mkEntry zap.DebugLevel "Failed to Get VirtualMachine Instance" [].

(** The calls an operation made to the control plane between the creation
    and the cancellation of its context [ctx], when [after] extends
    [before] by exactly such a bracket. *)
Definition bracket (ctx : context.Context) (before after : list ssh_config.Event)
  (calls : list ssh_config.Event) : Prop :=
  after = (before ++ ssh_config.EvWithTimeout ctx :: calls ++
           [ssh_config.EvCancel ctx])%list.

(** A customer row of the customer [this] denotes: same primary key. *)
Definition same_customer (this r : models.Customer) : bool :=
  N.eqb (gorm.ID (models.Customer_Model r)) (gorm.ID (models.Customer_Model this)).

End Props.

(* ------------------------------------------------------------------ *)
(** ** Properties of the certificate manager *)

Section CertificateManager.

Import Go ssh_config Props.

Context {S : Type} (env : Env S).

Variable this : VirtualMachineSshCertificateManager.

(** Every run of [GetSshPublicCertificate], spelled out: the host system is
    asked for, a failure is logged, and the dereference of the pointer that
    was never assigned ends the call. *)
Lemma GetSshPublicCertificate_run (vm : object.VirtualMachine) (name : string)
  (w : World S) :
  GetSshPublicCertificate env this vm name w =
    let ctx := deadline (time.Second * 20) in
    let '((_, FindError), s') := rpc_HostSystem env ctx vm (remote w) in
    (Panicked nil_pointer_dereference,
     mkWorld s'
       (Logger w ++ match FindError with
                    | Some err => [host_not_found_entry err]
                    | None => []
                    end)
       (events w ++ [EvWithTimeout ctx; EvHostSystem ctx (object.Reference vm);
                     EvCancel ctx])).
Proof.
  unfold GetSshPublicCertificate, context_WithTimeout, VirtualMachine_HostSystem,
    defer, bind, extern, emit, modify, ret, deadline.
  cbn [fst snd remote Logger events].
  destruct (rpc_HostSystem env _ vm (remote w)) as [[h e] s'].
  destruct e as [err|]; cbn; rewrite <- ?app_assoc, ?app_nil_r; reflexivity.
Qed.

(** A run of [GenerateSshKeys] on a machine whose host system resolves. *)
Lemma GenerateSshKeys_run (vm : object.VirtualMachine) (w : World S)
  (h : object.HostSystem) (s1 : S) :
  rpc_HostSystem env (deadline (time.Minute * 1)) vm (remote w) =
    ((Some h, None), s1) ->
  GenerateSshKeys env this vm w =
    let ctx := deadline (time.Minute * 1) in
    let dn := "VirtualMachine-" ++ object.Name vm in
    let '((csr, GenerationError), s2) :=
      rpc_GenerateCertificateSigningRequestByDn env ctx (root_manager_for this h) dn s1 in
    (Returned (Some (mkSshCertificateCredentials EmptyString "ssh_key.pub" (bytes_of csr)),
               GenerationError),
     mkWorld s2 (Logger w)
       (events w ++ [EvWithTimeout ctx; EvHostSystem ctx (object.Reference vm);
                     EvGenerateCertificateSigningRequestByDn ctx (root_manager_for this h) dn;
                     EvCancel ctx])).
Proof.
  intros Hhost.
  unfold GenerateSshKeys, context_WithTimeout, VirtualMachine_HostSystem,
    Manager_GenerateCertificateSigningRequestByDn, HostSystem_Reference,
    Sprintf_VirtualMachine, NewSshCertificateCredentials, root_manager_for,
    defer, bind, extern, emit, modify, ret, deref, deadline in *.
  cbn [fst snd remote Logger events types.NewReference].
  rewrite Hhost. cbn.
  destruct (rpc_GenerateCertificateSigningRequestByDn env _ _ _ s1) as [[csr e] s2].
  cbn. rewrite <- ?app_assoc. reflexivity.
Qed.

(** C2.  [GetSshPublicCertificate] dereferences [CertificateHostManager],
    which is nil from its declaration on, in every call: whatever the
    control plane answers, and also when the host system is not found, the
    call ends in the nil-pointer panic right after the host-system lookup. *)
Theorem GetSshPublicCertificate_nil_dereference_on_every_call
  (vm : object.VirtualMachine) (name : string) (w : World S) :
  let r := GetSshPublicCertificate env this vm name w in
  let ctx := deadline (time.Second * 20) in
  fst r = Panicked nil_pointer_dereference /\
  events (snd r) =
    (events w ++ [EvWithTimeout ctx; EvHostSystem ctx (object.Reference vm);
                  EvCancel ctx])%list.
Proof.
  cbv zeta. rewrite GetSshPublicCertificate_run. cbv zeta.
  destruct (rpc_HostSystem env _ vm (remote w)) as [[h e] s'].
  split; reflexivity.
Qed.

(** C1, as the code behaves.  When the host system of the machine is not
    found, [GetSshPublicCertificate] logs the failure and goes on: nothing
    is returned to the caller, the call panics. *)
Theorem GetSshPublicCertificate_swallows_host_failure
  (vm : object.VirtualMachine) (name : string) (w : World S)
  (h : option object.HostSystem) (err : error) (s' : S) :
  rpc_HostSystem env (deadline (time.Second * 20)) vm (remote w) =
    ((h, Some err), s') ->
  let r := GetSshPublicCertificate env this vm name w in
  Logger (snd r) = (Logger w ++ [host_not_found_entry err])%list /\
  fst r = Panicked nil_pointer_dereference /\
  ~ returns_error r.
Proof.
  intros Hhost r. subst r.
  rewrite GetSshPublicCertificate_run. cbv zeta. rewrite Hhost.
  repeat split. intros [e He]. discriminate He.
Qed.

(** C7, as the code behaves.  After an upload that succeeded, reading the
    certificate back does not return any certificate info: the call
    panics. *)
Theorem GetSshPublicCertificate_after_upload_panics
  (vm : object.VirtualMachine) (Key : SshCertificateCredentials)
  (name : string) (w : World S) :
  let uploaded := UploadSshKeys env this vm Key w in
  fst uploaded = Returned None ->
  let r := GetSshPublicCertificate env this vm name (snd uploaded) in
  fst r = Panicked nil_pointer_dereference /\
  forall info e, fst r <> Returned (Some info, e).
Proof.
  intros uploaded _ r. subst r.
  rewrite GetSshPublicCertificate_run. cbv zeta.
  destruct (rpc_HostSystem env _ vm (remote (snd uploaded))) as [[h e] s'].
  split; [reflexivity | intros info e' H; discriminate H].
Qed.

(** C5, as the code behaves.  When the host system resolves and the
    certificate authority rejects the request, [GenerateSshKeys] returns the
    error together with a credentials value (wrapping whatever text came
    back), not the error alone. *)
Theorem GenerateSshKeys_rejected_returns_both
  (vm : object.VirtualMachine) (w : World S) (h : object.HostSystem)
  (s1 s2 : S) (csr : string) (err : error) :
  rpc_HostSystem env (deadline (time.Minute * 1)) vm (remote w) =
    ((Some h, None), s1) ->
  rpc_GenerateCertificateSigningRequestByDn env (deadline (time.Minute * 1))
    (root_manager_for this h) ("VirtualMachine-" ++ object.Name vm) s1 =
    ((csr, Some err), s2) ->
  fst (GenerateSshKeys env this vm w) =
    Returned (Some (mkSshCertificateCredentials EmptyString "ssh_key.pub" (bytes_of csr)),
              Some err) /\
  returns_both (GenerateSshKeys env this vm w).
Proof.
  intros Hhost Hsign.
  rewrite (GenerateSshKeys_run vm w h s1 Hhost). cbv zeta. rewrite Hsign.
  split; [reflexivity | eexists; eexists; reflexivity].
Qed.

(** C6.  When the host system resolves and the signing request is accepted,
    [GenerateSshKeys] has asked the host's certificate manager for the
    distinguished name "VirtualMachine-" followed by the machine's name,
    and returns, without error, the text it got under the file name
    "ssh_key.pub". *)
Theorem GenerateSshKeys_distinguished_name_and_filename
  (vm : object.VirtualMachine) (w : World S) (h : object.HostSystem)
  (s1 s2 : S) (csr : string) :
  rpc_HostSystem env (deadline (time.Minute * 1)) vm (remote w) =
    ((Some h, None), s1) ->
  rpc_GenerateCertificateSigningRequestByDn env (deadline (time.Minute * 1))
    (root_manager_for this h) ("VirtualMachine-" ++ object.Name vm) s1 =
    ((csr, None), s2) ->
  let r := GenerateSshKeys env this vm w in
  (exists creds,
     fst r = Returned (Some creds, None) /\
     FileName creds = "ssh_key.pub" /\
     Content creds = bytes_of csr) /\
  (forall ctx m dn,
     In (EvGenerateCertificateSigningRequestByDn ctx m dn) (events (snd r)) ->
     In (EvGenerateCertificateSigningRequestByDn ctx m dn) (events w) \/
     dn = "VirtualMachine-" ++ object.Name vm) /\
  In (EvGenerateCertificateSigningRequestByDn (deadline (time.Minute * 1))
        (root_manager_for this h) ("VirtualMachine-" ++ object.Name vm))
     (events (snd r)).
Proof.
  intros Hhost Hsign r. subst r.
  rewrite (GenerateSshKeys_run vm w h s1 Hhost). cbv zeta. rewrite Hsign.
  cbn [fst snd events].
  split; [eexists; repeat split | split].
  - intros ctx m dn Hin. apply in_app_or in Hin. destruct Hin as [Hin | Hin].
    + left. exact Hin.
    + right. cbn in Hin.
      destruct Hin as [H | [H | [H | [H | []]]]]; try discriminate H.
      now inversion H.
  - apply in_or_app. right. cbn. auto.
Qed.

End CertificateManager.

(* ------------------------------------------------------------------ *)
(** ** Properties of the root-credentials manager *)

Section Strings.






End Strings.

Section RootCredentialsManager.

Import Go ssh_config Props.

Context {S : Type} (env : Env S).

Variable this : VirtualMachineSshRootCredentialsManager.

(** The credentials built at lines 193-198. *)
Lemma SshCredentials_built_result (w : World S) :
  fst (SshCredentials_built env w) =
    Returned (types.mkNamePasswordAuthentication false "root"
                (string_of (hashed_secret env w))).
Proof.
  unfold SshCredentials_built, hashed_secret, bind, library, ret.
  destruct (uuid_New env (remote w)) as [u s1]. cbn.
  destruct (bcrypt_GenerateFromPassword env _ 15 s1) as [[hash e] s2].
  reflexivity.
Qed.

(** The outcome of [GetSshRootCredentials], by the answer to the metadata
    read: the error of a read that fails, and the loader's panic on a read
    that succeeds. *)
Lemma GetSshRootCredentials_result (vm : object.VirtualMachine) (w : World S) :
  fst (GetSshRootCredentials env this vm w) =
    match metadata_retrieval env vm w with
    | Some err => Returned (None, Some err)
    | None => Panicked (panic_message "unexpected type")
    end.
Proof.
  unfold GetSshRootCredentials, SshCredentials_built, metadata_retrieval,
    context_WithTimeout, Collector_RetrieveOne, mo.LoadObjectContent,
    Logger_Debug, log, defer, bind, extern, library, emit, modify, ret, panic,
    deadline.
  destruct (uuid_New env (remote w)) as [u s1]. cbn.
  destruct (bcrypt_GenerateFromPassword env _ 15 s1) as [[hash e] s2]. cbn.
  destruct (rpc_RetrieveOne env _ _ _ s2) as [[err|] s3]; reflexivity.
Qed.

(** C4, as the code behaves.  When the metadata read succeeds,
    [GetSshRootCredentials] does not return the credential pair: the
    answer is loaded into a destination that points to a pointer, the
    loader panics with "unexpected type", and the caller gets neither a
    pair nor an error. *)
Theorem GetSshRootCredentials_panics_when_read_succeeds
  (vm : object.VirtualMachine) (w : World S) :
  metadata_retrieval env vm w = None ->
  let r := fst (GetSshRootCredentials env this vm w) in
  r = Panicked (panic_message "unexpected type") /\
  ~ IsReturned r /\
  forall creds e, r <> Returned (Some creds, e).
Proof.
  intros Hread r. subst r.
  rewrite GetSshRootCredentials_result, Hread. cbn.
  repeat split; auto. intros creds e H. discriminate H.
Qed.


End RootCredentialsManager.

(* ------------------------------------------------------------------ *)
(** ** Deadlines *)

Section Deadlines.

Import Go ssh_config Props.

Context {S : Type} (env : Env S).

Ltac run_manager :=
  unfold GetSshRootCredentials, SshCredentials_built, GetSshPublicCertificate,
    GenerateSshKeys, UploadSshKeys, mo.LoadObjectContent,
    context_WithTimeout, VirtualMachine_HostSystem,
    Manager_CertificateInfo, Manager_InstallServerCertificate,
    Manager_GenerateCertificateSigningRequestByDn, Collector_RetrieveOne,
    HostSystem_Reference, Logger_Debug, Logger_Error, log, when_err,
    defer, bind, extern, library, emit, modify, ret, deref, panic;
  cbn [fst snd remote Logger events types.NewReference].

Ltac close_trace calls :=
  exists calls; cbn [fst snd events];
  rewrite <- ?app_assoc;
  split; [reflexivity | split; [repeat constructor | reflexivity]].

Lemma GetSshRootCredentials_deadline this vm :
  runs_under (seconds 10) (GetSshRootCredentials env this vm).
Proof.
  intros w. run_manager.
  destruct (uuid_New env (remote w)) as [u s1]. cbn.
  destruct (bcrypt_GenerateFromPassword env _ 15 s1) as [[hash e] s2]. cbn.
  destruct (rpc_RetrieveOne env _ _ _ s2) as [[err|] s3]; cbn;
    close_trace [EvRetrieveOne (deadline (seconds 10)) (object.Reference vm)
                   ["name"; "guest"]].
Qed.

Lemma GetSshPublicCertificate_deadline this vm name :
  runs_under (seconds 20) (GetSshPublicCertificate env this vm name).
Proof.
  intros w. rewrite GetSshPublicCertificate_run. cbv zeta.
  destruct (rpc_HostSystem env _ vm (remote w)) as [[h e] s'].
  close_trace [EvHostSystem (deadline (seconds 20)) (object.Reference vm)].
Qed.

Lemma GenerateSshKeys_deadline this vm :
  runs_under (seconds 60) (GenerateSshKeys env this vm).
Proof.
  intros w. run_manager.
  destruct (rpc_HostSystem env _ vm (remote w)) as [[[h|] [e|]] s1]; cbn;
    try (close_trace [EvHostSystem (deadline (seconds 60)) (object.Reference vm)]).
  destruct (rpc_GenerateCertificateSigningRequestByDn env _ _ _ s1)
    as [[csr e] s2].
  close_trace
    [EvHostSystem (deadline (seconds 60)) (object.Reference vm);
     EvGenerateCertificateSigningRequestByDn (deadline (seconds 60))
       (root_manager_for this h) ("VirtualMachine-" ++ object.Name vm)].
Qed.

Lemma UploadSshKeys_deadline this vm Key :
  runs_under (seconds 60) (UploadSshKeys env this vm Key).
Proof.
  intros w. run_manager.
  destruct (rpc_HostSystem env _ vm (remote w)) as [[[h|] [e|]] s1]; cbn;
    try (close_trace [EvHostSystem (deadline (seconds 60)) (object.Reference vm)]).
  destruct (rpc_InstallServerCertificate env _ _ _ s1) as [[err|] s2];
    close_trace
      [EvHostSystem (deadline (seconds 60)) (object.Reference vm);
       EvInstallServerCertificate (deadline (seconds 60))
         (root_manager_for this h) (string_of (Content Key))].
Qed.

(** C9.  Each operation creates a context of its own, bounded by 10 seconds
    for the metadata read of [GetSshRootCredentials], 20 seconds for
    [GetSshPublicCertificate] and 60 seconds for [GenerateSshKeys] and
    [UploadSshKeys]; every call it makes to the control plane runs under
    that context, and the context is cancelled when the operation leaves. *)
Theorem operations_carry_their_deadlines :
  (forall this vm,
     runs_under (seconds 10) (GetSshRootCredentials env this vm)) /\
  (forall this vm name,
     runs_under (seconds 20) (GetSshPublicCertificate env this vm name)) /\
  (forall this vm,
     runs_under (seconds 60) (GenerateSshKeys env this vm)) /\
  (forall this vm Key,
     runs_under (seconds 60) (UploadSshKeys env this vm Key)).
Proof.
  repeat split.
  - apply GetSshRootCredentials_deadline.
  - apply GetSshPublicCertificate_deadline.
  - apply GenerateSshKeys_deadline.
  - apply UploadSshKeys_deadline.
Qed.

End Deadlines.

(* ------------------------------------------------------------------ *)
(** ** Properties of the entities *)

Section Lists.

Context {A : Type}.

Lemma filter_none (p : A -> bool) (l : list A) :
  (forall x, In x l -> p x = false) -> filter p l = [].
Proof.
  induction l as [|x l IH]; intros H; cbn; [reflexivity|].
  rewrite (H x (or_introl eq_refl)). apply IH. intros y Hy. apply H. now right.
Qed.

Lemma filter_all (p : A -> bool) (l : list A) :
  (forall x, In x l -> p x = true) -> filter p l = l.
Proof.
  induction l as [|x l IH]; intros H; cbn; [reflexivity|].
  rewrite (H x (or_introl eq_refl)). f_equal. apply IH.
  intros y Hy. apply H. now right.
Qed.

Lemma map_fixed (f : A -> A) (l : list A) :
  (forall x, In x l -> f x = x) -> map f l = l.
Proof.
  induction l as [|x l IH]; intros H; cbn; [reflexivity|].
  rewrite (H x (or_introl eq_refl)). f_equal. apply IH.
  intros y Hy. apply H. now right.
Qed.

Lemma Forall2_map_right (P : A -> A -> Prop) (f : A -> A) (l : list A) :
  (forall x, In x l -> P x (f x)) -> Forall2 P l (map f l).
Proof.
  induction l as [|x l IH]; intros H; cbn; constructor.
  - apply H. now left.
  - apply IH. intros y Hy. apply H. now right.
Qed.

End Lists.

Section Repository.

Import Go models Props.

Local Open Scope list_scope.

(** The primary-key condition of a stored machine selects its row. *)
Lemma matches_identity (this r : VirtualMachine) :
  gorm.ID (VirtualMachine_Model this) <> 0%N ->
  gorm.matches (gorm.identity this ++ [] ++ []) r = same_id this r.
Proof.
  intros Hid. unfold same_id. cbn.
  unfold id_cond. destruct (N.eqb_spec (gorm.ID (VirtualMachine_Model this)) 0) as [E|_];
    [contradiction|].
  cbn. rewrite andb_true_r.
  destruct (N.eqb_spec (gorm.ID (VirtualMachine_Model r))
              (gorm.ID (VirtualMachine_Model this))) as [E|E].
  - rewrite E. apply Z.eqb_refl.
  - apply Z.eqb_neq. intros H. apply E. now apply N2Z.inj.
Qed.

(** Stamping [deleted_at] leaves the primary key alone. *)
Lemma same_id_mark_deleted (this r : VirtualMachine) (at_ : gorm.Time) :
  same_id this (gorm.mark_deleted at_ r) = same_id this r.
Proof. reflexivity. Qed.

(** Purging after the soft delete removes exactly the rows of the key. *)
Lemma purge_after_soft_delete (this : VirtualMachine) (at_ : gorm.Time)
  (t : list VirtualMachine) :
  filter (fun r => negb (same_id this r))
    (map (fun r => if same_id this r && gorm.live r
                   then gorm.mark_deleted at_ r else r) t) =
  filter (fun r => negb (same_id this r)) t.
Proof.
  induction t as [|r t IH]; cbn [map]; [reflexivity|].
  destruct (same_id this r) eqn:E; cbn [andb].
  - destruct (gorm.live r); cbn [filter];
      rewrite ?same_id_mark_deleted, E; cbn [negb]; exact IH.
  - cbn [filter]. rewrite E. cbn [negb]. f_equal. exact IH.
Qed.

(** A run of [Delete] on a machine that has a primary key: the soft delete
    reports the live rows of that key, the purge removes its rows. *)
Lemma VirtualMachine_Delete_run (this : VirtualMachine) (d : Tables) :
  gorm.ID (VirtualMachine_Model this) <> 0%N ->
  VirtualMachine_Delete this d =
    (Returned
       (gorm.mkDB None
          (gorm.count (fun r => same_id this r && gorm.live r) (virtual_machines d)),
        None),
     mkTables (clock d + 1 + 1) (customers d)
       (filter (fun r => negb (same_id this r)) (virtual_machines d))
       (ssh_public_keys d)).
Proof.
  intros Hid.
  unfold VirtualMachine_Delete, bind, ret, gorm.Delete.
  cbn [gorm.Clauses gorm.Unscoped gorm.Model_ gorm.Database gorm.Unscoped_
       gorm.ModelIdentity gorm.Wheres gorm.Clauses_].
  change (gorm.identity zero_VirtualMachine) with (@nil gorm.Cond).
  assert (Hne : exists c cs, gorm.identity this ++ [] ++ [] = c :: cs).
  { cbn. unfold id_cond.
    destruct (N.eqb_spec (gorm.ID (VirtualMachine_Model this)) 0) as [E|_];
      [contradiction | eexists; eexists; reflexivity]. }
  destruct Hne as (c & cs & Hne).
  pose proof (fun r => matches_identity this r Hid) as Hm.
  rewrite Hne in *. cbn [gorm.rows gorm.with_rows gorm.tick gorm.now
    VirtualMachine_Schema advance clock customers virtual_machines ssh_public_keys
    gorm.Error].
  set (t := virtual_machines d).
  assert (E1 : filter (fun r => gorm.matches (c :: cs) r && gorm.live r) t =
               filter (fun r => same_id this r && gorm.live r) t).
  { apply filter_ext. intros r. now rewrite Hm. }
  assert (E2 : filter (fun r => negb (gorm.matches (c :: cs) r))
                 (map (fun r => if gorm.matches (c :: cs) r && gorm.live r
                                then gorm.mark_deleted (clock d) r else r) t) =
               filter (fun r => negb (same_id this r)) t).
  { rewrite <- (purge_after_soft_delete this (clock d) t).
    transitivity
      (filter (fun r => negb (same_id this r))
         (map (fun r => if gorm.matches (c :: cs) r && gorm.live r
                        then gorm.mark_deleted (clock d) r else r) t)).
    - apply filter_ext. intros r. now rewrite Hm.
    - f_equal. apply map_ext. intros r. now rewrite Hm. }
  unfold gorm.count. rewrite E1, E2. reflexivity.
Qed.

(** C8.  For a machine that has an id (a non-zero primary key, zero being
    the ORM's "no key"), [Delete] never fails for want of a row: the first
    call returns no error, whether or not a row was there, and leaves no
    row of that id behind, soft-deleted or not; the second call in
    succession finds nothing, changes nothing and returns no error. *)
Theorem VirtualMachine_Delete_twice_no_error (this : VirtualMachine) (d : Tables) :
  gorm.ID (VirtualMachine_Model this) <> 0%N ->
  let first := VirtualMachine_Delete this d in
  let second := VirtualMachine_Delete this (snd first) in
  (exists res, fst first = Returned (res, None) /\ gorm.Error res = None) /\
  (forall r, In r (virtual_machines (snd first)) -> same_id this r = false) /\
  fst second = Returned (gorm.mkDB None 0, None) /\
  virtual_machines (snd second) = virtual_machines (snd first).
Proof.
  intros Hid first second. subst second first.
  rewrite (VirtualMachine_Delete_run this d Hid). cbn [fst snd].
  rewrite (VirtualMachine_Delete_run this _ Hid).
  cbn [fst snd virtual_machines].
  assert (Hgone : forall r,
            In r (filter (fun r => negb (same_id this r)) (virtual_machines d)) ->
            same_id this r = false).
  { intros r Hr. apply filter_In in Hr. destruct Hr as [_ Hr].
    now apply negb_true_iff in Hr. }
  split; [eexists; split; reflexivity|].
  split; [exact Hgone|].
  split.
  - unfold gorm.count. rewrite filter_none; [reflexivity|].
    intros r Hr. now rewrite (Hgone r Hr).
  - apply filter_all. intros r Hr. now rewrite (Hgone r Hr).
Qed.

(** A run of [Update]: the rows of the machine, soft-deleted ones
    included, are rotated; the others stay. *)
Lemma SSHPublicKey_Update_run (this : SSHPublicKey) (NewSshKey : list byte)
  (filenames : list string) (d : Tables) :
  SSHPublicKey_Update this NewSshKey filenames d =
    (Returned
       (gorm.mkDB None (gorm.count (same_machine this) (ssh_public_keys d)), None),
     mkTables (clock d + 1) (customers d) (virtual_machines d)
       (map (fun r => if same_machine this r
                      then rotated (clock d) NewSshKey r else r)
          (ssh_public_keys d))).
Proof.
  unfold SSHPublicKey_Update, bind, ret, gorm.Update.
  cbn [gorm.Where gorm.Unscoped gorm.Model_ gorm.Database gorm.Unscoped_
       gorm.ModelIdentity gorm.Wheres gorm.Clauses_ app].
  change (gorm.identity zero_SSHPublicKey) with (@nil gorm.Cond).
  cbn [app gorm.assign SSHPublicKey_Schema String.eqb Ascii.eqb Bool.eqb text_of
       gorm.rows gorm.with_rows gorm.tick gorm.now advance clock customers
       virtual_machines ssh_public_keys gorm.Error orb].
  assert (Hhit : forall r : SSHPublicKey,
            gorm.matches
              [gorm.mkCond "virtual_machine_id" (gorm.Int (VirtualMachineID this))] r
            && true = same_machine this r).
  { intros r. cbn. now rewrite !andb_true_r. }
  unfold gorm.count.
  rewrite (filter_ext _ _ Hhit).
  rewrite (map_ext _ (fun r => if same_machine this r
                               then rotated (clock d) NewSshKey r else r)).
  - reflexivity.
  - intros r. rewrite Hhit. reflexivity.
Qed.

(** C10.  [Update] overwrites the [Key] of the rows whose
    [virtual_machine_id] is that of the receiver (the ORM stamping their
    [UpdatedAt]) and nothing else: [Filename] and [VirtualMachineID] of
    every row are unchanged, the other rows and the other tables are
    untouched, and the variadic [Filename] argument has no effect. *)
Theorem SSHPublicKey_Update_overwrites_only_Key (this : SSHPublicKey)
  (NewSshKey : list byte) (filenames : list string) (d : Tables) :
  let r := SSHPublicKey_Update this NewSshKey filenames d in
  Forall2
    (fun old new =>
       Filename new = Filename old /\
       VirtualMachineID new = VirtualMachineID old /\
       (VirtualMachineID old = VirtualMachineID this ->
        Key new = string_of_list_byte NewSshKey /\
        new = rotated (clock d) NewSshKey old) /\
       (VirtualMachineID old <> VirtualMachineID this -> new = old))
    (ssh_public_keys d) (ssh_public_keys (snd r)) /\
  customers (snd r) = customers d /\
  virtual_machines (snd r) = virtual_machines d /\
  r = SSHPublicKey_Update this NewSshKey [] d.
Proof.
  intros r. subst r. rewrite !SSHPublicKey_Update_run. cbn [fst snd
    ssh_public_keys customers virtual_machines].
  split; [|repeat split].
  apply Forall2_map_right. intros old _. unfold same_machine.
  destruct (Z.eqb_spec (VirtualMachineID old) (VirtualMachineID this)) as [E|E].
  - repeat split; intros; try reflexivity; contradiction.
  - repeat split; intros; try reflexivity; contradiction.
Qed.

End Repository.

(* ------------------------------------------------------------------ *)
(** ** The theorems at work on the simulated control plane *)

Section Instances.

Import Go ssh_config Props.

Local Open Scope list_scope.

(** The machine "ghost" is not in the inventory: the failure is logged and
    the call panics. *)
Lemma GetSshPublicCertificate_swallows_host_failure_witness :
  rpc_HostSystem Sim.env (deadline (time.Second * 20)) Sim.ghost
    (remote (Sim.world true)) =
    ((None, Some (Fault "VM doesn't have a HostSystem")), Sim.datacenter true) /\
  Logger (snd (GetSshPublicCertificate Sim.env Sim.certificates_manager Sim.ghost
                 "ssh_key.pub" (Sim.world true))) =
    Logger (Sim.world true) ++
    [host_not_found_entry (Fault "VM doesn't have a HostSystem")] /\
  fst (GetSshPublicCertificate Sim.env Sim.certificates_manager Sim.ghost
         "ssh_key.pub" (Sim.world true)) = Panicked nil_pointer_dereference /\
  ~ returns_error (GetSshPublicCertificate Sim.env Sim.certificates_manager
                     Sim.ghost "ssh_key.pub" (Sim.world true)).
Proof.
  split; [reflexivity|].
  apply (GetSshPublicCertificate_swallows_host_failure Sim.env
           Sim.certificates_manager Sim.ghost "ssh_key.pub" (Sim.world true)
           None (Fault "VM doesn't have a HostSystem") (Sim.datacenter true)).
  reflexivity.
Defined.

(** The request generated for "web-1", uploaded and read back. *)
Lemma GetSshPublicCertificate_after_upload_panics_witness :
  fst (UploadSshKeys Sim.env Sim.certificates_manager Sim.web1
         (NewSshCertificateCredentials (bytes_of "CSR:VirtualMachine-web-1")
            "ssh_key.pub")
         (Sim.world true)) = Returned None /\
  fst (GetSshPublicCertificate Sim.env Sim.certificates_manager Sim.web1
         "ssh_key.pub"
         (snd (UploadSshKeys Sim.env Sim.certificates_manager Sim.web1
                 (NewSshCertificateCredentials
                    (bytes_of "CSR:VirtualMachine-web-1") "ssh_key.pub")
                 (Sim.world true)))) = Panicked nil_pointer_dereference /\
  forall info e,
    fst (GetSshPublicCertificate Sim.env Sim.certificates_manager Sim.web1
           "ssh_key.pub"
           (snd (UploadSshKeys Sim.env Sim.certificates_manager Sim.web1
                   (NewSshCertificateCredentials
                      (bytes_of "CSR:VirtualMachine-web-1") "ssh_key.pub")
                   (Sim.world true)))) <> Returned (Some info, e).
Proof.
  split; [reflexivity|].
  apply (GetSshPublicCertificate_after_upload_panics Sim.env
           Sim.certificates_manager Sim.web1
           (NewSshCertificateCredentials (bytes_of "CSR:VirtualMachine-web-1")
              "ssh_key.pub")
           "ssh_key.pub" (Sim.world true)).
  reflexivity.
Defined.

(** The certificate authority turns the request for "web-1" down. *)
Lemma GenerateSshKeys_rejected_returns_both_witness :
  rpc_HostSystem Sim.env (deadline (time.Minute * 1)) Sim.web1
    (remote (Sim.world false)) =
    ((Some (object.mkHostSystem (Sim.host_ref "host-9")), None),
     Sim.datacenter false) /\
  rpc_GenerateCertificateSigningRequestByDn Sim.env (deadline (time.Minute * 1))
    (root_manager_for Sim.certificates_manager
       (object.mkHostSystem (Sim.host_ref "host-9")))
    ("VirtualMachine-" ++ object.Name Sim.web1)%string (Sim.datacenter false) =
    ((EmptyString, Some (Fault "certificate authority rejected the request")),
     Sim.datacenter false) /\
  fst (GenerateSshKeys Sim.env Sim.certificates_manager Sim.web1 (Sim.world false)) =
    Returned (Some (mkSshCertificateCredentials EmptyString "ssh_key.pub" []),
              Some (Fault "certificate authority rejected the request")) /\
  returns_both (GenerateSshKeys Sim.env Sim.certificates_manager Sim.web1
                  (Sim.world false)).
Proof.
  split; [reflexivity|]. split; [reflexivity|].
  apply (GenerateSshKeys_rejected_returns_both Sim.env Sim.certificates_manager
           Sim.web1 (Sim.world false)
           (object.mkHostSystem (Sim.host_ref "host-9"))
           (Sim.datacenter false) (Sim.datacenter false) EmptyString
           (Fault "certificate authority rejected the request"));
    reflexivity.
Defined.

(** The certificate authority signs the request for "web-1". *)
Lemma GenerateSshKeys_distinguished_name_and_filename_witness :
  rpc_HostSystem Sim.env (deadline (time.Minute * 1)) Sim.web1
    (remote (Sim.world true)) =
    ((Some (object.mkHostSystem (Sim.host_ref "host-9")), None),
     Sim.datacenter true) /\
  rpc_GenerateCertificateSigningRequestByDn Sim.env (deadline (time.Minute * 1))
    (root_manager_for Sim.certificates_manager
       (object.mkHostSystem (Sim.host_ref "host-9")))
    ("VirtualMachine-" ++ object.Name Sim.web1)%string (Sim.datacenter true) =
    (("CSR:VirtualMachine-web-1"%string, None), Sim.datacenter true) /\
  (exists creds,
     fst (GenerateSshKeys Sim.env Sim.certificates_manager Sim.web1
            (Sim.world true)) = Returned (Some creds, None) /\
     FileName creds = "ssh_key.pub" /\
     Content creds = bytes_of "CSR:VirtualMachine-web-1") /\
  In (EvGenerateCertificateSigningRequestByDn (deadline (time.Minute * 1))
        (root_manager_for Sim.certificates_manager
           (object.mkHostSystem (Sim.host_ref "host-9")))
        "VirtualMachine-web-1")
     (events (snd (GenerateSshKeys Sim.env Sim.certificates_manager Sim.web1
                     (Sim.world true)))).
Proof.
  split; [reflexivity|]. split; [reflexivity|].
  destruct (GenerateSshKeys_distinguished_name_and_filename Sim.env
              Sim.certificates_manager Sim.web1 (Sim.world true)
              (object.mkHostSystem (Sim.host_ref "host-9"))
              (Sim.datacenter true) (Sim.datacenter true)
              "CSR:VirtualMachine-web-1" eq_refl eq_refl) as (Hret & _ & Hev).
  split; [exact Hret | exact Hev].
Defined.

(** The metadata of "web-1" is read without error, and the call panics. *)
Lemma GetSshRootCredentials_panics_when_read_succeeds_witness :
  metadata_retrieval Sim.env Sim.web1 (Sim.world true) = None /\
  fst (GetSshRootCredentials Sim.env Sim.root_manager Sim.web1 (Sim.world true)) =
    Panicked (panic_message "unexpected type") /\
  ~ IsReturned
      (fst (GetSshRootCredentials Sim.env Sim.root_manager Sim.web1
              (Sim.world true))) /\
  forall creds e,
    fst (GetSshRootCredentials Sim.env Sim.root_manager Sim.web1 (Sim.world true))
    <> Returned (Some creds, e).
Proof.
  split; [reflexivity|].
  apply (GetSshRootCredentials_panics_when_read_succeeds Sim.env Sim.root_manager
           Sim.web1 (Sim.world true) eq_refl).
Defined.



(** A value that was never stored has no primary key: the ORM refuses both
    statements and [Delete] reports it. *)
Example VirtualMachine_Delete_without_id :
  models.VirtualMachine_Delete
    (models.NewVirtualMachine "alice" "web-1" "/dc/vm/web-1" "10.0.0.5")
    Rows.tables =
  (Returned (gorm.mkDB (Some gorm.ErrMissingWhereClause) 0,
             Some gorm.ErrMissingWhereClause),
   Rows.tables).
Proof. reflexivity. Qed.

(** Rotating the key of machine 7: one row rewritten, the other as before. *)
Example SSHPublicKey_Update_key7 :
  models.ssh_public_keys
    (snd (models.SSHPublicKey_Update Rows.key7 (bytes_of "ssh-rsa CCCC")
            ["ignored.pub"%string] Rows.tables)) =
  [models.mkSSHPublicKey (gorm.mkModel 1 110 200 None) "ssh-rsa CCCC" "id_rsa.pub" 7;
   Rows.key8].
Proof. reflexivity. Qed.

(** The machine of row 7, deleted twice. *)
Lemma VirtualMachine_Delete_twice_no_error_witness :
  gorm.ID (models.VirtualMachine_Model Rows.web1) <> 0%N /\
  fst (models.VirtualMachine_Delete Rows.web1 Rows.tables) =
    Returned (gorm.mkDB None 1, None) /\
  fst (models.VirtualMachine_Delete Rows.web1
         (snd (models.VirtualMachine_Delete Rows.web1 Rows.tables))) =
    Returned (gorm.mkDB None 0, None) /\
  models.virtual_machines
    (snd (models.VirtualMachine_Delete Rows.web1
            (snd (models.VirtualMachine_Delete Rows.web1 Rows.tables)))) =
  models.virtual_machines (snd (models.VirtualMachine_Delete Rows.web1 Rows.tables)).
Proof.
  assert (Hid : gorm.ID (models.VirtualMachine_Model Rows.web1) <> 0%N)
    by discriminate.
  split; [exact Hid|]. split; [reflexivity|].
  destruct (VirtualMachine_Delete_twice_no_error Rows.web1 Rows.tables Hid)
    as (_ & _ & Hsecond & Hsame).
  split; [exact Hsecond | exact Hsame].
Defined.

End Instances.

(* ------------------------------------------------------------------ *)
(** ** Further properties of the certificate manager *)

Section CertificateManagerRuns.

Import Go ssh_config Props.

Local Open Scope list_scope.

Context {S : Type} (env : Env S).

Variable this : VirtualMachineSshCertificateManager.

Ltac run_certificates :=
  unfold GenerateSshKeys, UploadSshKeys, context_WithTimeout,
    VirtualMachine_HostSystem, Manager_InstallServerCertificate,
    Manager_GenerateCertificateSigningRequestByDn, HostSystem_Reference,
    Sprintf_VirtualMachine, NewSshCertificateCredentials, root_manager_for,
    Logger_Debug, Logger_Error, log, upload_done_entry, upload_failed_entry,
    defer, bind, extern, emit, modify, ret, deref, panic, deadline in *;
  cbn [fst snd remote Logger events types.NewReference].

(** A run of [UploadSshKeys] whose host lookup reports an error. *)
Lemma UploadSshKeys_run_unresolved (vm : object.VirtualMachine)
  (Key : SshCertificateCredentials) (w : World S)
  (h : option object.HostSystem) (err : error) (s1 : S) :
  rpc_HostSystem env (deadline (time.Minute * 1)) vm (remote w) =
    ((h, Some err), s1) ->
  UploadSshKeys env this vm Key w =
    let ctx := deadline (time.Minute * 1) in
    (Returned (Some (errors_New "Failed to Get Host System Info")),
     mkWorld s1 (Logger w)
       (events w ++ [EvWithTimeout ctx; EvHostSystem ctx (object.Reference vm);
                     EvCancel ctx])).
Proof.
  intros Hhost. run_certificates. rewrite Hhost. cbn.
  rewrite <- ?app_assoc. reflexivity.
Qed.

(** A run of [UploadSshKeys] on a machine whose host system resolves. *)
Lemma UploadSshKeys_run_resolved (vm : object.VirtualMachine)
  (Key : SshCertificateCredentials) (w : World S)
  (h : object.HostSystem) (s1 : S) :
  rpc_HostSystem env (deadline (time.Minute * 1)) vm (remote w) =
    ((Some h, None), s1) ->
  UploadSshKeys env this vm Key w =
    let ctx := deadline (time.Minute * 1) in
    let m := root_manager_for this h in
    let cert := string_of (Content Key) in
    let '(InstallationError, s2) := rpc_InstallServerCertificate env ctx m cert s1 in
    (Returned match InstallationError with
              | None => None
              | Some _ => Some (errors_New "Failed to Add SSH Support")
              end,
     mkWorld s2
       (Logger w ++ [match InstallationError with
                     | None => upload_done_entry vm
                     | Some _ => upload_failed_entry
                     end])
       (events w ++ [EvWithTimeout ctx; EvHostSystem ctx (object.Reference vm);
                     EvInstallServerCertificate ctx m cert; EvCancel ctx])).
Proof.
  intros Hhost. run_certificates. rewrite Hhost. cbn.
  destruct (rpc_InstallServerCertificate env _ _ _ s1) as [[err|] s2]; cbn;
    rewrite <- ?app_assoc; reflexivity.
Qed.

(** A run of either operation when the lookup hands back neither a host
    nor an error: the call on the nil host panics. *)
Lemma UploadSshKeys_run_nil_host (vm : object.VirtualMachine)
  (Key : SshCertificateCredentials) (w : World S) (s1 : S) :
  rpc_HostSystem env (deadline (time.Minute * 1)) vm (remote w) =
    ((None, None), s1) ->
  UploadSshKeys env this vm Key w =
    let ctx := deadline (time.Minute * 1) in
    (Panicked nil_pointer_dereference,
     mkWorld s1 (Logger w)
       (events w ++ [EvWithTimeout ctx; EvHostSystem ctx (object.Reference vm);
                     EvCancel ctx])).
Proof.
  intros Hhost. run_certificates. rewrite Hhost. cbn.
  rewrite <- ?app_assoc. reflexivity.
Qed.

Lemma GenerateSshKeys_run_unresolved (vm : object.VirtualMachine) (w : World S)
  (h : option object.HostSystem) (err : error) (s1 : S) :
  rpc_HostSystem env (deadline (time.Minute * 1)) vm (remote w) =
    ((h, Some err), s1) ->
  GenerateSshKeys env this vm w =
    let ctx := deadline (time.Minute * 1) in
    (Returned (None, Some (errors_New "Failed to Get OS Info")),
     mkWorld s1 (Logger w)
       (events w ++ [EvWithTimeout ctx; EvHostSystem ctx (object.Reference vm);
                     EvCancel ctx])).
Proof.
  intros Hhost. run_certificates. rewrite Hhost. cbn.
  rewrite <- ?app_assoc. reflexivity.
Qed.

Lemma GenerateSshKeys_run_nil_host (vm : object.VirtualMachine) (w : World S)
  (s1 : S) :
  rpc_HostSystem env (deadline (time.Minute * 1)) vm (remote w) =
    ((None, None), s1) ->
  GenerateSshKeys env this vm w =
    let ctx := deadline (time.Minute * 1) in
    (Panicked nil_pointer_dereference,
     mkWorld s1 (Logger w)
       (events w ++ [EvWithTimeout ctx; EvHostSystem ctx (object.Reference vm);
                     EvCancel ctx])).
Proof.
  intros Hhost. run_certificates. rewrite Hhost. cbn.
  rewrite <- ?app_assoc. reflexivity.
Qed.

(** X1.  When the host system of the machine cannot be resolved,
    [UploadSshKeys] returns the error "Failed to Get Host System Info",
    asks the control plane for nothing else (no installation is tried) and
    writes nothing to the log. *)
Theorem UploadSshKeys_host_failure (vm : object.VirtualMachine)
  (Key : SshCertificateCredentials) (w : World S)
  (h : option object.HostSystem) (err : error) (s1 : S) :
  rpc_HostSystem env (deadline (time.Minute * 1)) vm (remote w) =
    ((h, Some err), s1) ->
  let r := UploadSshKeys env this vm Key w in
  fst r = Returned (Some (errors_New "Failed to Get Host System Info")) /\
  bracket (deadline (time.Minute * 1)) (events w) (events (snd r))
    [EvHostSystem (deadline (time.Minute * 1)) (object.Reference vm)] /\
  Logger (snd r) = Logger w /\
  remote (snd r) = s1.
Proof.
  intros Hhost r. subst r.
  rewrite (UploadSshKeys_run_unresolved vm Key w h err s1 Hhost).
  repeat split.
Qed.

(** X2.  When the host turns the certificate down, [UploadSshKeys] returns
    the error "Failed to Add SSH Support", whatever the cause was, and
    writes one error entry, which does not carry the cause either. *)
Theorem UploadSshKeys_installation_failure (vm : object.VirtualMachine)
  (Key : SshCertificateCredentials) (w : World S)
  (h : object.HostSystem) (s1 s2 : S) (err : error) :
  rpc_HostSystem env (deadline (time.Minute * 1)) vm (remote w) =
    ((Some h, None), s1) ->
  rpc_InstallServerCertificate env (deadline (time.Minute * 1))
    (root_manager_for this h) (string_of (Content Key)) s1 = (Some err, s2) ->
  let r := UploadSshKeys env this vm Key w in
  fst r = Returned (Some (errors_New "Failed to Add SSH Support")) /\
  Logger (snd r) = Logger w ++ [upload_failed_entry] /\
  zap.Fields upload_failed_entry = [] /\
  remote (snd r) = s2.
Proof.
  intros Hhost Hinstall r. subst r.
  rewrite (UploadSshKeys_run_resolved vm Key w h s1 Hhost). cbv zeta.
  rewrite Hinstall. repeat split.
Qed.

(** X3.  [UploadSshKeys] returns nil exactly when the host system resolves
    and the host accepts the text [string(Key.Content)] as its server
    certificate; it then writes the debug entry naming the machine. *)
Theorem UploadSshKeys_succeeds_iff (vm : object.VirtualMachine)
  (Key : SshCertificateCredentials) (w : World S) :
  let r := UploadSshKeys env this vm Key w in
  (fst r = Returned None <->
   exists h s1 s2,
     rpc_HostSystem env (deadline (time.Minute * 1)) vm (remote w) =
       ((Some h, None), s1) /\
     rpc_InstallServerCertificate env (deadline (time.Minute * 1))
       (root_manager_for this h) (string_of (Content Key)) s1 = (None, s2)) /\
  (fst r = Returned None -> Logger (snd r) = Logger w ++ [upload_done_entry vm]).
Proof.
  cbv zeta.
  destruct (rpc_HostSystem env (deadline (time.Minute * 1)) vm (remote w))
    as [[[h|] [e|]] s1] eqn:Hhost.
  - rewrite (UploadSshKeys_run_unresolved vm Key w _ e s1 Hhost). cbn [fst snd Logger].
    split; [split|]; try discriminate.
    intros (h' & s1' & s2 & H & _). discriminate H.
  - rewrite (UploadSshKeys_run_resolved vm Key w h s1 Hhost). cbv zeta.
    destruct (rpc_InstallServerCertificate env _ (root_manager_for this h) _ s1)
      as [[err|] s2] eqn:Hinstall; cbn [fst snd Logger].
    + split; [split|]; try discriminate.
      intros (h' & s1' & s2' & H & Hi). inversion H; subst. congruence.
    + split; [split|]; try reflexivity.
      intros _. exists h, s1, s2. split; [reflexivity | exact Hinstall].
  - rewrite (UploadSshKeys_run_unresolved vm Key w _ e s1 Hhost). cbn [fst snd Logger].
    split; [split|]; try discriminate.
    intros (h' & s1' & s2 & H & _). discriminate H.
  - rewrite (UploadSshKeys_run_nil_host vm Key w s1 Hhost). cbn [fst snd Logger].
    split; [split|]; try discriminate.
    intros (h' & s1' & s2 & H & _). discriminate H.
Qed.

(** X4.  When the host system of the machine cannot be resolved,
    [GenerateSshKeys] returns no credentials and the error "Failed to Get
    OS Info", and sends no signing request. *)
Theorem GenerateSshKeys_host_failure (vm : object.VirtualMachine) (w : World S)
  (h : option object.HostSystem) (err : error) (s1 : S) :
  rpc_HostSystem env (deadline (time.Minute * 1)) vm (remote w) =
    ((h, Some err), s1) ->
  let r := GenerateSshKeys env this vm w in
  fst r = Returned (None, Some (errors_New "Failed to Get OS Info")) /\
  bracket (deadline (time.Minute * 1)) (events w) (events (snd r))
    [EvHostSystem (deadline (time.Minute * 1)) (object.Reference vm)] /\
  remote (snd r) = s1.
Proof.
  intros Hhost r. subst r.
  rewrite (GenerateSshKeys_run_unresolved vm w h err s1 Hhost).
  repeat split.
Qed.

(** X5.  [GenerateSshKeys] never writes to the log, whether it succeeds,
    fails on the host lookup or has its request turned down. *)
Theorem GenerateSshKeys_never_logs (vm : object.VirtualMachine) (w : World S) :
  Logger (snd (GenerateSshKeys env this vm w)) = Logger w.
Proof.
  destruct (rpc_HostSystem env (deadline (time.Minute * 1)) vm (remote w))
    as [[[h|] [e|]] s1] eqn:Hhost.
  - now rewrite (GenerateSshKeys_run_unresolved vm w _ e s1 Hhost).
  - rewrite (GenerateSshKeys_run env this vm w h s1 Hhost). cbv zeta.
    now destruct (rpc_GenerateCertificateSigningRequestByDn env _ _ _ s1)
      as [[csr e] s2].
  - now rewrite (GenerateSshKeys_run_unresolved vm w _ e s1 Hhost).
  - now rewrite (GenerateSshKeys_run_nil_host vm w s1 Hhost).
Qed.

(** X6.  Whatever [GenerateSshKeys] returns as credentials, with or without
    an error, has the file name "ssh_key.pub" and an empty file path: the
    path is never filled in. *)
Theorem GenerateSshKeys_credentials_shape (vm : object.VirtualMachine)
  (w : World S) (creds : SshCertificateCredentials) (e : option error) :
  fst (GenerateSshKeys env this vm w) = Returned (Some creds, e) ->
  FileName creds = "ssh_key.pub" /\ FilePath creds = EmptyString.
Proof.
  destruct (rpc_HostSystem env (deadline (time.Minute * 1)) vm (remote w))
    as [[[h|] [e'|]] s1] eqn:Hhost.
  - rewrite (GenerateSshKeys_run_unresolved vm w _ e' s1 Hhost). discriminate.
  - rewrite (GenerateSshKeys_run env this vm w h s1 Hhost). cbv zeta.
    destruct (rpc_GenerateCertificateSigningRequestByDn env _ _ _ s1)
      as [[csr e'] s2].
    intros H. inversion H; subst. split; reflexivity.
  - rewrite (GenerateSshKeys_run_unresolved vm w _ e' s1 Hhost). discriminate.
  - rewrite (GenerateSshKeys_run_nil_host vm w s1 Hhost). discriminate.
Qed.

(** X7.  Generation and installation are single round trips without retry:
    under its context each makes the host lookup once and then at most one
    call to the certificate manager of the resolved host, for the name
    "VirtualMachine-" followed by the machine's name respectively for the
    text [string(Key.Content)]. *)
Theorem certificate_operations_do_not_retry (vm : object.VirtualMachine)
  (Key : SshCertificateCredentials) (w : World S) :
  let ctx := deadline (time.Minute * 1) in
  let lookup := EvHostSystem ctx (object.Reference vm) in
  (exists calls,
     bracket ctx (events w) (events (snd (GenerateSshKeys env this vm w))) calls /\
     (calls = [lookup] \/
      exists h, calls =
        [lookup;
         EvGenerateCertificateSigningRequestByDn ctx (root_manager_for this h)
           ("VirtualMachine-" ++ object.Name vm)%string])) /\
  (exists calls,
     bracket ctx (events w) (events (snd (UploadSshKeys env this vm Key w))) calls /\
     (calls = [lookup] \/
      exists h, calls =
        [lookup;
         EvInstallServerCertificate ctx (root_manager_for this h)
           (string_of (Content Key))])).
Proof.
  cbv zeta. unfold bracket.
  set (ctx := deadline (time.Minute * 1)).
  set (lookup := EvHostSystem ctx (object.Reference vm)).
  destruct (rpc_HostSystem env ctx vm (remote w)) as [[[h|] [e|]] s1] eqn:Hhost.
  - rewrite (GenerateSshKeys_run_unresolved vm w _ e s1 Hhost),
      (UploadSshKeys_run_unresolved vm Key w _ e s1 Hhost).
    split; exists [lookup]; (split; [reflexivity | left; reflexivity]).
  - rewrite (GenerateSshKeys_run env this vm w h s1 Hhost),
      (UploadSshKeys_run_resolved vm Key w h s1 Hhost). cbv zeta.
    fold ctx.
    destruct (rpc_GenerateCertificateSigningRequestByDn env ctx _ _ s1)
      as [[csr e] s2].
    destruct (rpc_InstallServerCertificate env ctx _ _ s1) as [ie s3].
    split.
    + exists [lookup;
              EvGenerateCertificateSigningRequestByDn ctx (root_manager_for this h)
                ("VirtualMachine-" ++ object.Name vm)%string].
      split; [reflexivity | right; exists h; reflexivity].
    + exists [lookup;
              EvInstallServerCertificate ctx (root_manager_for this h)
                (string_of (Content Key))].
      split; [reflexivity | right; exists h; reflexivity].
  - rewrite (GenerateSshKeys_run_unresolved vm w _ e s1 Hhost),
      (UploadSshKeys_run_unresolved vm Key w _ e s1 Hhost).
    split; exists [lookup]; (split; [reflexivity | left; reflexivity]).
  - rewrite (GenerateSshKeys_run_nil_host vm w s1 Hhost),
      (UploadSshKeys_run_nil_host vm Key w s1 Hhost).
    split; exists [lookup]; (split; [reflexivity | left; reflexivity]).
Qed.

(** X8.  Generation followed by installation hands the host exactly the
    text the certificate authority returned: the credentials carry its
    bytes, and [UploadSshKeys] turns them back into the same text. *)
Theorem UploadSshKeys_installs_generated_text (vm : object.VirtualMachine)
  (w : World S) (h h' : object.HostSystem) (s1 s2 s3 : S) (csr : string) :
  rpc_HostSystem env (deadline (time.Minute * 1)) vm (remote w) =
    ((Some h, None), s1) ->
  rpc_GenerateCertificateSigningRequestByDn env (deadline (time.Minute * 1))
    (root_manager_for this h) ("VirtualMachine-" ++ object.Name vm)%string s1 =
    ((csr, None), s2) ->
  rpc_HostSystem env (deadline (time.Minute * 1)) vm s2 = ((Some h', None), s3) ->
  let generated := GenerateSshKeys env this vm w in
  exists creds,
    fst generated = Returned (Some creds, None) /\
    In (EvInstallServerCertificate (deadline (time.Minute * 1))
          (root_manager_for this h') csr)
       (events (snd (UploadSshKeys env this vm creds (snd generated)))).
Proof.
  intros Hhost Hsign Hhost' generated. subst generated.
  rewrite (GenerateSshKeys_run env this vm w h s1 Hhost). cbv zeta.
  rewrite Hsign. cbn [fst snd].
  eexists. split; [reflexivity|].
  rewrite (UploadSshKeys_run_resolved vm _
             (mkWorld s2 (Logger w) _) h' s3 Hhost'). cbv zeta.
  cbn [Content]. unfold string_of, bytes_of.
  rewrite string_of_list_byte_of_string.
  destruct (rpc_InstallServerCertificate env _ _ csr s3) as [ie s4].
  cbn [snd events]. apply in_or_app. right. cbn. auto.
Qed.

End CertificateManagerRuns.

(* ------------------------------------------------------------------ *)
(** ** Further properties of the root-credentials manager *)

Section RootCredentialsManagerRuns.

Import Go ssh_config Props.

Local Open Scope list_scope.

Context {S : Type} (env : Env S).

Variable this : VirtualMachineSshRootCredentialsManager.

(** The world [GetSshRootCredentials] leaves behind. *)
Lemma GetSshRootCredentials_world (vm : object.VirtualMachine) (w : World S) :
  let ctx := deadline (time.Second * 10) in
  let after := snd (GetSshRootCredentials env this vm w) in
  events after =
    events w ++ [EvWithTimeout ctx;
                 EvRetrieveOne ctx (object.Reference vm) ["name"; "guest"];
                 EvCancel ctx] /\
  Logger after =
    Logger w ++ match metadata_retrieval env vm w with
                | Some _ => [retrieve_failed_entry]
                | None => []
                end.
Proof.
  unfold GetSshRootCredentials, SshCredentials_built, metadata_retrieval,
    retrieve_failed_entry, context_WithTimeout, Collector_RetrieveOne,
    mo.LoadObjectContent, Logger_Debug, log,
    defer, bind, extern, library, emit, modify, ret, panic, deadline.
  destruct (uuid_New env (remote w)) as [u s1]. cbn.
  destruct (bcrypt_GenerateFromPassword env _ 15 s1) as [[hash e] s2]. cbn.
  destruct (rpc_RetrieveOne env _ _ _ s2) as [[err|] s3]; cbn;
    rewrite <- ?app_assoc, ?app_nil_r; split; reflexivity.
Qed.

(** X9.  [GetSshRootCredentials] drops the error of the hashing call: when
    hashing fails and hands back no digest, the pair built for the caller
    has "root" and an empty password, the call goes on to the metadata
    read, and when that read fails the error returned is the read's, not
    the hash's. *)
Theorem GetSshRootCredentials_ignores_hash_failure
  (vm : object.VirtualMachine) (w : World S) (hash_error : error) :
  (let '(u, s1) := uuid_New env (remote w) in
   fst (bcrypt_GenerateFromPassword env (bytes_of (uuid.String_ u)) 15 s1)) =
    ([], Some hash_error) ->
  fst (SshCredentials_built env w) =
    Returned (types.mkNamePasswordAuthentication false "root" EmptyString) /\
  In (EvRetrieveOne (deadline (time.Second * 10)) (object.Reference vm)
        ["name"; "guest"])
     (events (snd (GetSshRootCredentials env this vm w))) /\
  (forall err, metadata_retrieval env vm w = Some err ->
   fst (GetSshRootCredentials env this vm w) = Returned (None, Some err)).
Proof.
  intros Hhash. split; [|split].
  - rewrite SshCredentials_built_result. unfold hashed_secret.
    destruct (uuid_New env (remote w)) as [u s1].
    rewrite Hhash. reflexivity.
  - destruct (GetSshRootCredentials_world vm w) as [Hev _].
    cbv zeta in Hev. rewrite Hev.
    apply in_or_app. right. cbn. auto.
  - intros err Hread. now rewrite GetSshRootCredentials_result, Hread.
Qed.

(** X10.  [GetSshRootCredentials] makes one call to the control plane, the
    read of the properties "name" and "guest" of the machine, and writes
    to the log only when that read fails: one debug entry, without the
    cause. *)
Theorem GetSshRootCredentials_one_read_and_log
  (vm : object.VirtualMachine) (w : World S) :
  let ctx := deadline (time.Second * 10) in
  let after := snd (GetSshRootCredentials env this vm w) in
  bracket ctx (events w) (events after)
    [EvRetrieveOne ctx (object.Reference vm) ["name"; "guest"]] /\
  (metadata_retrieval env vm w = None -> Logger after = Logger w) /\
  (metadata_retrieval env vm w <> None ->
   Logger after = Logger w ++ [retrieve_failed_entry] /\
   zap.Fields retrieve_failed_entry = []).
Proof.
  cbv zeta. unfold bracket.
  destruct (GetSshRootCredentials_world vm w) as [Hev Hlog].
  cbv zeta in Hev, Hlog. rewrite Hev, Hlog.
  split; [reflexivity|].
  destruct (metadata_retrieval env vm w) as [err|]; split.
  - discriminate.
  - intros _. split; reflexivity.
  - intros _. now rewrite app_nil_r.
  - intros H. contradiction.
Qed.

End RootCredentialsManagerRuns.

(* ------------------------------------------------------------------ *)
(** ** Further properties of the entities *)

Section RepositoryRuns.

Import Go models Props.

Local Open Scope list_scope.

Lemma length_filter_split {A} (p : A -> bool) (l : list A) :
  (List.length (filter p l) + List.length (filter (fun x => negb (p x)) l) =
   List.length l)%nat.
Proof.
  induction l as [|x l IH]; cbn; [reflexivity|].
  destruct (p x); cbn; lia.
Qed.

Lemma length_filter_andb {A} (p q : A -> bool) (l : list A) :
  (List.length (filter (fun x => p x && q x) l) <= List.length (filter p l))%nat.
Proof.
  induction l as [|x l IH]; cbn; [lia|].
  destruct (p x), (q x); cbn; lia.
Qed.

(** X11.  [Delete] of a machine that has an id removes the rows of that id
    and nothing else: the other machines stay, and so do the customers and
    the SSH keys, those of the deleted machine included. *)
Theorem VirtualMachine_Delete_frame (this : VirtualMachine) (d : Tables) :
  gorm.ID (VirtualMachine_Model this) <> 0%N ->
  let after := snd (VirtualMachine_Delete this d) in
  customers after = customers d /\
  ssh_public_keys after = ssh_public_keys d /\
  (forall r, In r (virtual_machines after) <->
             In r (virtual_machines d) /\ same_id this r = false).
Proof.
  intros Hid after. subst after.
  rewrite (VirtualMachine_Delete_run this d Hid).
  cbn [snd customers ssh_public_keys virtual_machines].
  split; [reflexivity|]. split; [reflexivity|].
  intros r. rewrite filter_In, negb_true_iff. reflexivity.
Qed.

(** X12.  [Delete] of a machine value without an id (as [NewVirtualMachine]
    builds it, before it is stored) is refused: both statements lack a
    condition, the error "WHERE conditions required" of the first is
    returned and no table changes. *)
Theorem VirtualMachine_Delete_refused_without_id (this : VirtualMachine)
  (d : Tables) :
  gorm.ID (VirtualMachine_Model this) = 0%N ->
  VirtualMachine_Delete this d =
    (Returned (gorm.mkDB (Some gorm.ErrMissingWhereClause) 0,
               Some gorm.ErrMissingWhereClause), d).
Proof.
  intros Hid.
  unfold VirtualMachine_Delete, bind, ret, gorm.Delete.
  cbn [gorm.Clauses gorm.Unscoped gorm.Model_ gorm.Database gorm.Unscoped_
       gorm.ModelIdentity gorm.Wheres gorm.Clauses_].
  change (gorm.identity zero_VirtualMachine) with (@nil gorm.Cond).
  cbn [gorm.identity VirtualMachine_Schema]. unfold id_cond. rewrite Hid.
  reflexivity.
Qed.

(** X13.  The count [Delete] reports is that of its first statement: the
    live rows of the id.  The purge removes every row of the id, so rows
    that were already soft-deleted disappear without being counted. *)
Theorem VirtualMachine_Delete_accounting (this : VirtualMachine) (d : Tables) :
  gorm.ID (VirtualMachine_Model this) <> 0%N ->
  let r := VirtualMachine_Delete this d in
  exists res,
    fst r = Returned (res, None) /\
    gorm.RowsAffected res =
      gorm.count (fun x => same_id this x && gorm.live x) (virtual_machines d) /\
    gorm.RowsAffected res <= gorm.count (same_id this) (virtual_machines d) /\
    Z.of_nat (List.length (virtual_machines (snd r))) =
      Z.of_nat (List.length (virtual_machines d)) -
      gorm.count (same_id this) (virtual_machines d).
Proof.
  intros Hid r. subst r.
  rewrite (VirtualMachine_Delete_run this d Hid).
  cbn [fst snd virtual_machines]. eexists. split; [reflexivity|].
  cbn [gorm.RowsAffected]. unfold gorm.count.
  split; [reflexivity|]. split.
  - apply inj_le. apply length_filter_andb.
  - pose proof (length_filter_split (same_id this) (virtual_machines d)). lia.
Qed.

(** Rotation keeps a row with its machine. *)
Lemma same_machine_rotated (this r : SSHPublicKey) (at_ : gorm.Time)
  (content : list byte) :
  same_machine this (rotated at_ content r) = same_machine this r.
Proof. reflexivity. Qed.

(** X14.  [Update] is no upsert and does not fail for want of a row: it
    returns no error, reports the number of rows of the machine
    (soft-deleted ones included), keeps the number of rows, and when the
    machine has no key row it leaves the table as it was. *)
Theorem SSHPublicKey_Update_not_an_upsert (this : SSHPublicKey)
  (NewSshKey : list byte) (filenames : list string) (d : Tables) :
  let r := SSHPublicKey_Update this NewSshKey filenames d in
  fst r = Returned
            (gorm.mkDB None (gorm.count (same_machine this) (ssh_public_keys d)),
             None) /\
  List.length (ssh_public_keys (snd r)) = List.length (ssh_public_keys d) /\
  ((forall x, In x (ssh_public_keys d) -> same_machine this x = false) ->
   gorm.count (same_machine this) (ssh_public_keys d) = 0 /\
   ssh_public_keys (snd r) = ssh_public_keys d).
Proof.
  cbv zeta. rewrite SSHPublicKey_Update_run. cbn [fst snd ssh_public_keys].
  split; [reflexivity|]. split; [apply length_map|].
  intros Hnone. split.
  - unfold gorm.count. now rewrite (filter_none _ _ Hnone).
  - apply map_fixed. intros x Hx. now rewrite (Hnone x Hx).
Qed.

(** X15.  Rotations are last-write-wins: after two updates in a row for the
    same machine, every row holds the key it would hold after the second
    alone, and the rows of the machine hold the second content. *)
Theorem SSHPublicKey_Update_last_write_wins (this : SSHPublicKey)
  (first second : list byte) (f1 f2 : list string) (d : Tables) :
  let once := snd (SSHPublicKey_Update this second f2 d) in
  let twice :=
    snd (SSHPublicKey_Update this second f2
           (snd (SSHPublicKey_Update this first f1 d))) in
  map Key (ssh_public_keys twice) = map Key (ssh_public_keys once) /\
  Forall (fun r => same_machine this r = true ->
                   Key r = string_of_list_byte second)
    (ssh_public_keys twice).
Proof.
  cbv zeta. rewrite !SSHPublicKey_Update_run. cbn [snd ssh_public_keys clock].
  split.
  - rewrite !map_map. apply map_ext. intros r.
    destruct (same_machine this r) eqn:E.
    + rewrite same_machine_rotated, E. reflexivity.
    + rewrite E. reflexivity.
  - apply Forall_forall. intros r Hr.
    rewrite map_map in Hr. apply in_map_iff in Hr. destruct Hr as (x & Hx & _).
    subst r. destruct (same_machine this x) eqn:E.
    + rewrite same_machine_rotated, E. intros _. reflexivity.
    + rewrite E. intros H. congruence.
Qed.

(** X16.  Round trip of the content: [Update] called with the bytes of a
    text stores that very text in the [Key] of the rows of the machine. *)
Theorem SSHPublicKey_Update_stores_text (this : SSHPublicKey) (text : string)
  (filenames : list string) (d : Tables) :
  Forall (fun r => same_machine this r = true -> Key r = text)
    (ssh_public_keys
       (snd (SSHPublicKey_Update this (list_byte_of_string text) filenames d))).
Proof.
  rewrite SSHPublicKey_Update_run. cbn [snd ssh_public_keys].
  apply Forall_forall. intros r Hr.
  apply in_map_iff in Hr. destruct Hr as (x & Hx & _). subst r.
  destruct (same_machine this x) eqn:E.
  - intros _. cbn [rotated Key]. apply string_of_list_byte_of_string.
  - intros H. congruence.
Qed.

(** X17.  [NewSshPublicKey] leaves [VirtualMachineID] at zero, so an
    [Update] on a key it built addresses machine 0: when every stored key
    belongs to a machine with a non-zero id, no row is rewritten. *)
Theorem SSHPublicKey_Update_of_new_key_rewrites_nothing
  (KeyContent : list byte) (name : string) (NewSshKey : list byte)
  (filenames : list string) (d : Tables) :
  (forall x, In x (ssh_public_keys d) -> VirtualMachineID x <> 0) ->
  let r := SSHPublicKey_Update (NewSshPublicKey KeyContent name) NewSshKey
             filenames d in
  fst r = Returned (gorm.mkDB None 0, None) /\
  ssh_public_keys (snd r) = ssh_public_keys d.
Proof.
  intros Hids r. subst r.
  assert (Hnone : forall x, In x (ssh_public_keys d) ->
            same_machine (NewSshPublicKey KeyContent name) x = false).
  { intros x Hx. unfold same_machine. cbn. apply Z.eqb_neq. now apply Hids. }
  rewrite SSHPublicKey_Update_run. cbn [fst snd ssh_public_keys].
  split.
  - unfold gorm.count. now rewrite (filter_none _ _ Hnone).
  - apply map_fixed. intros x Hx. now rewrite (Hnone x Hx).
Qed.

(** X20.  Keys are not tied to the life of their machine: after [Delete]
    of a machine that has an id, an [Update] of a key reports the same
    count and leaves the same key contents as it would have without the
    deletion. *)
Theorem SSHPublicKey_Update_after_machine_Delete (vm : VirtualMachine)
  (this : SSHPublicKey) (NewSshKey : list byte) (filenames : list string)
  (d : Tables) :
  gorm.ID (VirtualMachine_Model vm) <> 0%N ->
  let deleted := snd (VirtualMachine_Delete vm d) in
  fst (SSHPublicKey_Update this NewSshKey filenames deleted) =
    fst (SSHPublicKey_Update this NewSshKey filenames d) /\
  map Key (ssh_public_keys (snd (SSHPublicKey_Update this NewSshKey filenames deleted))) =
    map Key (ssh_public_keys (snd (SSHPublicKey_Update this NewSshKey filenames d))).
Proof.
  intros Hid deleted. subst deleted.
  rewrite (VirtualMachine_Delete_run vm d Hid).
  rewrite !SSHPublicKey_Update_run. cbn [fst snd ssh_public_keys clock].
  split; [reflexivity|].
  rewrite !map_map. apply map_ext. intros r.
  destruct (same_machine this r); reflexivity.
Qed.

End RepositoryRuns.

Section CustomerRuns.

Import Go models Props.

Local Open Scope list_scope.

Lemma matches_customer_identity (this r : Customer) :
  gorm.ID (Customer_Model this) <> 0%N ->
  gorm.matches (gorm.identity this ++ [] ++ []) r = same_customer this r.
Proof.
  intros Hid. unfold same_customer. cbn.
  unfold id_cond. destruct (N.eqb_spec (gorm.ID (Customer_Model this)) 0) as [E|_];
    [contradiction|].
  cbn. rewrite andb_true_r.
  destruct (N.eqb_spec (gorm.ID (Customer_Model r))
              (gorm.ID (Customer_Model this))) as [E|E].
  - rewrite E. apply Z.eqb_refl.
  - apply Z.eqb_neq. intros H. apply E. now apply N2Z.inj.
Qed.

Lemma purge_customer_after_soft_delete (this : Customer) (at_ : gorm.Time)
  (t : list Customer) :
  filter (fun r => negb (same_customer this r))
    (map (fun r => if same_customer this r && gorm.live r
                   then gorm.mark_deleted at_ r else r) t) =
  filter (fun r => negb (same_customer this r)) t.
Proof.
  induction t as [|r t IH]; cbn [map]; [reflexivity|].
  destruct (same_customer this r) eqn:E; cbn [andb].
  - assert (Em : same_customer this (gorm.mark_deleted at_ r) = true) by exact E.
    destruct (gorm.live r); cbn [filter]; rewrite ?Em, ?E; cbn [negb]; exact IH.
  - cbn [filter]. rewrite E. cbn [negb]. f_equal. exact IH.
Qed.

(** A run of [Delete] on a customer that has a primary key. *)
Lemma Customer_Delete_run (this : Customer) (d : Tables) :
  gorm.ID (Customer_Model this) <> 0%N ->
  Customer_Delete this d =
    (Returned
       (gorm.mkDB None
          (gorm.count (fun r => same_customer this r && gorm.live r) (customers d)),
        None),
     mkTables (clock d + 1 + 1)
       (filter (fun r => negb (same_customer this r)) (customers d))
       (virtual_machines d) (ssh_public_keys d)).
Proof.
  intros Hid.
  unfold Customer_Delete, bind, ret, gorm.Delete.
  cbn [gorm.Unscoped gorm.Model_ gorm.Database gorm.Unscoped_
       gorm.ModelIdentity gorm.Wheres gorm.Clauses_].
  change (gorm.identity zero_Customer) with (@nil gorm.Cond).
  assert (Hne : exists c cs, gorm.identity this ++ [] ++ [] = c :: cs).
  { cbn. unfold id_cond.
    destruct (N.eqb_spec (gorm.ID (Customer_Model this)) 0) as [E|_];
      [contradiction | eexists; eexists; reflexivity]. }
  destruct Hne as (c & cs & Hne).
  pose proof (fun r => matches_customer_identity this r Hid) as Hm.
  rewrite Hne in *. cbn [gorm.rows gorm.with_rows gorm.tick gorm.now
    Customer_Schema advance clock customers virtual_machines ssh_public_keys
    gorm.Error].
  set (t := customers d).
  assert (E1 : filter (fun r => gorm.matches (c :: cs) r && gorm.live r) t =
               filter (fun r => same_customer this r && gorm.live r) t).
  { apply filter_ext. intros r. now rewrite Hm. }
  assert (E2 : filter (fun r => negb (gorm.matches (c :: cs) r))
                 (map (fun r => if gorm.matches (c :: cs) r && gorm.live r
                                then gorm.mark_deleted (clock d) r else r) t) =
               filter (fun r => negb (same_customer this r)) t).
  { rewrite <- (purge_customer_after_soft_delete this (clock d) t).
    transitivity
      (filter (fun r => negb (same_customer this r))
         (map (fun r => if gorm.matches (c :: cs) r && gorm.live r
                        then gorm.mark_deleted (clock d) r else r) t)).
    - apply filter_ext. intros r. now rewrite Hm.
    - f_equal. apply map_ext. intros r. now rewrite Hm. }
  unfold gorm.count. rewrite E1, E2. reflexivity.
Qed.

(** X18.  [Customer.Delete] on a customer that has an id returns no error
    whether or not a row was there, leaves no row of that id, and returns
    no error when called again; it removes nothing else: the machines the
    customer owns and their keys stay. *)
Theorem Customer_Delete_twice_and_frame (this : Customer) (d : Tables) :
  gorm.ID (Customer_Model this) <> 0%N ->
  let first := Customer_Delete this d in
  let second := Customer_Delete this (snd first) in
  (exists res, fst first = Returned (res, None)) /\
  (forall r, In r (customers (snd first)) <->
             In r (customers d) /\ same_customer this r = false) /\
  virtual_machines (snd first) = virtual_machines d /\
  ssh_public_keys (snd first) = ssh_public_keys d /\
  fst second = Returned (gorm.mkDB None 0, None) /\
  customers (snd second) = customers (snd first).
Proof.
  intros Hid first second. subst second first.
  rewrite (Customer_Delete_run this d Hid). cbn [fst snd].
  rewrite (Customer_Delete_run this _ Hid).
  cbn [fst snd customers virtual_machines ssh_public_keys].
  assert (Hgone : forall r,
            In r (filter (fun r => negb (same_customer this r)) (customers d)) ->
            same_customer this r = false).
  { intros r Hr. apply filter_In in Hr. destruct Hr as [_ Hr].
    now apply negb_true_iff in Hr. }
  split; [eexists; reflexivity|].
  split; [intros r; rewrite filter_In, negb_true_iff; reflexivity|].
  split; [reflexivity|]. split; [reflexivity|].
  split.
  - unfold gorm.count. rewrite filter_none; [reflexivity|].
    intros r Hr. now rewrite (Hgone r Hr).
  - apply filter_all. intros r Hr. now rewrite (Hgone r Hr).
Qed.

(** X19.  [Customer.Delete] on a customer value without an id is refused
    with the error "WHERE conditions required" and changes no table. *)
Theorem Customer_Delete_refused_without_id (this : Customer) (d : Tables) :
  gorm.ID (Customer_Model this) = 0%N ->
  Customer_Delete this d =
    (Returned (gorm.mkDB (Some gorm.ErrMissingWhereClause) 0,
               Some gorm.ErrMissingWhereClause), d).
Proof.
  intros Hid.
  unfold Customer_Delete, bind, ret, gorm.Delete.
  cbn [gorm.Unscoped gorm.Model_ gorm.Database gorm.Unscoped_
       gorm.ModelIdentity gorm.Wheres gorm.Clauses_].
  change (gorm.identity zero_Customer) with (@nil gorm.Cond).
  cbn [gorm.identity Customer_Schema]. unfold id_cond. rewrite Hid.
  reflexivity.
Qed.

End CustomerRuns.

(* ------------------------------------------------------------------ *)
(** ** The further properties at work *)

Section MoreInstances.

Import Go ssh_config Props.

Local Open Scope list_scope.

(** Uploading to "ghost", which the inventory does not know. *)
Lemma UploadSshKeys_host_failure_witness :
  rpc_HostSystem Sim.env (deadline (time.Minute * 1)) Sim.ghost
    (remote (Sim.world true)) =
    ((None, Some (Fault "VM doesn't have a HostSystem")), Sim.datacenter true) /\
  fst (UploadSshKeys Sim.env Sim.certificates_manager Sim.ghost
         (NewSshCertificateCredentials (bytes_of "PEM") "ssh_key.pub")
         (Sim.world true)) =
    Returned (Some (errors_New "Failed to Get Host System Info")) /\
  Logger (snd (UploadSshKeys Sim.env Sim.certificates_manager Sim.ghost
                 (NewSshCertificateCredentials (bytes_of "PEM") "ssh_key.pub")
                 (Sim.world true))) = [].
Proof.
  split; [reflexivity|].
  destruct (UploadSshKeys_host_failure Sim.env Sim.certificates_manager Sim.ghost
              (NewSshCertificateCredentials (bytes_of "PEM") "ssh_key.pub")
              (Sim.world true) None (Fault "VM doesn't have a HostSystem")
              (Sim.datacenter true) eq_refl) as (Hret & _ & Hlog & _).
  split; [exact Hret | exact Hlog].
Defined.

(** Uploading to "web-1" on a host that turns certificates down. *)
Lemma UploadSshKeys_installation_failure_witness :
  rpc_HostSystem Faulty.refusing_env (deadline (time.Minute * 1)) Sim.web1
    (remote (Sim.world true)) =
    ((Some (object.mkHostSystem (Sim.host_ref "host-9")), None),
     Sim.datacenter true) /\
  rpc_InstallServerCertificate Faulty.refusing_env (deadline (time.Minute * 1))
    (root_manager_for Sim.certificates_manager
       (object.mkHostSystem (Sim.host_ref "host-9")))
    (string_of (Content (NewSshCertificateCredentials (bytes_of "PEM")
                           "ssh_key.pub")))
    (Sim.datacenter true) =
    (Some (Fault "host refused the certificate"), Sim.datacenter true) /\
  fst (UploadSshKeys Faulty.refusing_env Sim.certificates_manager Sim.web1
         (NewSshCertificateCredentials (bytes_of "PEM") "ssh_key.pub")
         (Sim.world true)) =
    Returned (Some (errors_New "Failed to Add SSH Support")).
Proof.
  split; [reflexivity|]. split; [reflexivity|].
  apply (UploadSshKeys_installation_failure Faulty.refusing_env
           Sim.certificates_manager Sim.web1
           (NewSshCertificateCredentials (bytes_of "PEM") "ssh_key.pub")
           (Sim.world true) (object.mkHostSystem (Sim.host_ref "host-9"))
           (Sim.datacenter true) (Sim.datacenter true)
           (Fault "host refused the certificate") eq_refl eq_refl).
Defined.

(** Generating for "ghost". *)
Lemma GenerateSshKeys_host_failure_witness :
  rpc_HostSystem Sim.env (deadline (time.Minute * 1)) Sim.ghost
    (remote (Sim.world true)) =
    ((None, Some (Fault "VM doesn't have a HostSystem")), Sim.datacenter true) /\
  fst (GenerateSshKeys Sim.env Sim.certificates_manager Sim.ghost (Sim.world true)) =
    Returned (None, Some (errors_New "Failed to Get OS Info")).
Proof.
  split; [reflexivity|].
  apply (GenerateSshKeys_host_failure Sim.env Sim.certificates_manager Sim.ghost
           (Sim.world true) None (Fault "VM doesn't have a HostSystem")
           (Sim.datacenter true) eq_refl).
Defined.

(** The credentials that come with a rejection have the same shape. *)
Lemma GenerateSshKeys_credentials_shape_witness :
  fst (GenerateSshKeys Sim.env Sim.certificates_manager Sim.web1 (Sim.world false)) =
    Returned (Some (mkSshCertificateCredentials EmptyString "ssh_key.pub" []),
              Some (Fault "certificate authority rejected the request")) /\
  FileName (mkSshCertificateCredentials EmptyString "ssh_key.pub" []) =
    "ssh_key.pub" /\
  FilePath (mkSshCertificateCredentials EmptyString "ssh_key.pub" []) =
    EmptyString.
Proof.
  split; [reflexivity|].
  apply (GenerateSshKeys_credentials_shape Sim.env Sim.certificates_manager
           Sim.web1 (Sim.world false) _
           (Some (Fault "certificate authority rejected the request")) eq_refl).
Defined.

(** Generating for "web-1" and installing what came back. *)
Lemma UploadSshKeys_installs_generated_text_witness :
  rpc_HostSystem Sim.env (deadline (time.Minute * 1)) Sim.web1
    (remote (Sim.world true)) =
    ((Some (object.mkHostSystem (Sim.host_ref "host-9")), None),
     Sim.datacenter true) /\
  rpc_GenerateCertificateSigningRequestByDn Sim.env (deadline (time.Minute * 1))
    (root_manager_for Sim.certificates_manager
       (object.mkHostSystem (Sim.host_ref "host-9")))
    ("VirtualMachine-" ++ object.Name Sim.web1)%string (Sim.datacenter true) =
    (("CSR:VirtualMachine-web-1"%string, None), Sim.datacenter true) /\
  rpc_HostSystem Sim.env (deadline (time.Minute * 1)) Sim.web1
    (Sim.datacenter true) =
    ((Some (object.mkHostSystem (Sim.host_ref "host-9")), None),
     Sim.datacenter true) /\
  exists creds,
    fst (GenerateSshKeys Sim.env Sim.certificates_manager Sim.web1
           (Sim.world true)) = Returned (Some creds, None) /\
    In (EvInstallServerCertificate (deadline (time.Minute * 1))
          (root_manager_for Sim.certificates_manager
             (object.mkHostSystem (Sim.host_ref "host-9")))
          "CSR:VirtualMachine-web-1")
       (events (snd (UploadSshKeys Sim.env Sim.certificates_manager Sim.web1 creds
                       (snd (GenerateSshKeys Sim.env Sim.certificates_manager
                               Sim.web1 (Sim.world true)))))).
Proof.
  split; [reflexivity|]. split; [reflexivity|]. split; [reflexivity|].
  apply (UploadSshKeys_installs_generated_text Sim.env Sim.certificates_manager
           Sim.web1 (Sim.world true)
           (object.mkHostSystem (Sim.host_ref "host-9"))
           (object.mkHostSystem (Sim.host_ref "host-9"))
           (Sim.datacenter true) (Sim.datacenter true) (Sim.datacenter true)
           "CSR:VirtualMachine-web-1" eq_refl eq_refl eq_refl).
Defined.

(** Root credentials for "ghost" when hashing fails: the error that comes
    back is that of the read. *)
Lemma GetSshRootCredentials_ignores_hash_failure_witness :
  (let '(u, s1) := uuid_New Faulty.unhashing_env (remote (Sim.world true)) in
   fst (bcrypt_GenerateFromPassword Faulty.unhashing_env
          (bytes_of (uuid.String_ u)) 15 s1)) =
    ([], Some (Fault "crypto/bcrypt: hashing failed")) /\
  metadata_retrieval Faulty.unhashing_env Sim.ghost (Sim.world true) =
    Some (Fault "managed object not found") /\
  fst (SshCredentials_built Faulty.unhashing_env (Sim.world true)) =
    Returned (types.mkNamePasswordAuthentication false "root" EmptyString) /\
  fst (GetSshRootCredentials Faulty.unhashing_env Sim.root_manager Sim.ghost
         (Sim.world true)) =
    Returned (None, Some (Fault "managed object not found")).
Proof.
  split; [reflexivity|]. split; [reflexivity|].
  destruct (GetSshRootCredentials_ignores_hash_failure Faulty.unhashing_env
              Sim.root_manager Sim.ghost (Sim.world true)
              (Fault "crypto/bcrypt: hashing failed") eq_refl)
    as (Hbuilt & _ & Hread).
  split; [exact Hbuilt | exact (Hread _ eq_refl)].
Defined.

End MoreInstances.

Section RepositoryInstances.

Import Go models Props.

Local Open Scope list_scope.

(** Deleting machine 7: machine 8, the customers and both keys stay. *)
Lemma VirtualMachine_Delete_frame_witness :
  gorm.ID (models.VirtualMachine_Model Rows.web1) <> 0%N /\
  models.customers (snd (models.VirtualMachine_Delete Rows.web1 Rows.registry)) =
    [Rows.alice; Rows.bob] /\
  models.ssh_public_keys (snd (models.VirtualMachine_Delete Rows.web1 Rows.registry)) =
    [Rows.key7; Rows.key8] /\
  (In Rows.db1
     (models.virtual_machines
        (snd (models.VirtualMachine_Delete Rows.web1 Rows.registry))) <->
   In Rows.db1 (models.virtual_machines Rows.registry) /\
   same_id Rows.web1 Rows.db1 = false).
Proof.
  assert (Hid : gorm.ID (models.VirtualMachine_Model Rows.web1) <> 0%N)
    by discriminate.
  split; [exact Hid|].
  destruct (VirtualMachine_Delete_frame Rows.web1 Rows.registry Hid)
    as (Hc & Hk & Hm).
  split; [exact Hc|]. split; [exact Hk | exact (Hm Rows.db1)].
Defined.

(** Deleting a machine that was only constructed. *)
Lemma VirtualMachine_Delete_refused_without_id_witness :
  gorm.ID (models.VirtualMachine_Model
             (models.NewVirtualMachine "alice" "web-1" "/dc/vm/web-1" "10.0.0.5")) =
    0%N /\
  models.VirtualMachine_Delete
    (models.NewVirtualMachine "alice" "web-1" "/dc/vm/web-1" "10.0.0.5")
    Rows.registry =
  (Returned (gorm.mkDB (Some gorm.ErrMissingWhereClause) 0,
             Some gorm.ErrMissingWhereClause), Rows.registry).
Proof.
  split; [reflexivity|].
  apply (VirtualMachine_Delete_refused_without_id
           (models.NewVirtualMachine "alice" "web-1" "/dc/vm/web-1" "10.0.0.5")
           Rows.registry eq_refl).
Defined.

(** Deleting machine 7 from the sample tables. *)
Lemma VirtualMachine_Delete_accounting_witness :
  gorm.ID (models.VirtualMachine_Model Rows.web1) <> 0%N /\
  exists res,
    fst (models.VirtualMachine_Delete Rows.web1 Rows.registry) =
      Returned (res, None) /\
    gorm.RowsAffected res =
      gorm.count (fun x => same_id Rows.web1 x && gorm.live x)
        (models.virtual_machines Rows.registry) /\
    gorm.RowsAffected res <=
      gorm.count (same_id Rows.web1) (models.virtual_machines Rows.registry) /\
    Z.of_nat (List.length
                (models.virtual_machines
                   (snd (models.VirtualMachine_Delete Rows.web1 Rows.registry)))) =
      Z.of_nat (List.length (models.virtual_machines Rows.registry)) -
      gorm.count (same_id Rows.web1) (models.virtual_machines Rows.registry).
Proof.
  assert (Hid : gorm.ID (models.VirtualMachine_Model Rows.web1) <> 0%N)
    by discriminate.
  split; [exact Hid|].
  exact (VirtualMachine_Delete_accounting Rows.web1 Rows.registry Hid).
Defined.

(** Updating through a freshly built key: the keys of machines 7 and 8 are
    left alone. *)
Lemma SSHPublicKey_Update_of_new_key_rewrites_nothing_witness :
  (forall x, In x (models.ssh_public_keys Rows.registry) ->
             models.VirtualMachineID x <> 0) /\
  fst (models.SSHPublicKey_Update
         (models.NewSshPublicKey (list_byte_of_string "ssh-rsa DDDD") "new.pub")
         (list_byte_of_string "ssh-rsa EEEE") [] Rows.registry) =
    Returned (gorm.mkDB None 0, None) /\
  models.ssh_public_keys
    (snd (models.SSHPublicKey_Update
            (models.NewSshPublicKey (list_byte_of_string "ssh-rsa DDDD") "new.pub")
            (list_byte_of_string "ssh-rsa EEEE") [] Rows.registry)) =
    models.ssh_public_keys Rows.registry.
Proof.
  assert (Hids : forall x, In x (models.ssh_public_keys Rows.registry) ->
                           models.VirtualMachineID x <> 0).
  { intros x [Hx | [Hx | []]]; subst x; discriminate. }
  split; [exact Hids|].
  exact (SSHPublicKey_Update_of_new_key_rewrites_nothing
           (list_byte_of_string "ssh-rsa DDDD") "new.pub" (list_byte_of_string "ssh-rsa EEEE") []
           Rows.registry Hids).
Defined.

(** Deleting customer 3 twice: the machine "alice" owns stays. *)
Lemma Customer_Delete_twice_and_frame_witness :
  gorm.ID (models.Customer_Model Rows.alice) <> 0%N /\
  fst (models.Customer_Delete Rows.alice Rows.registry) =
    Returned (gorm.mkDB None 1, None) /\
  models.virtual_machines (snd (models.Customer_Delete Rows.alice Rows.registry)) =
    [Rows.web1; Rows.db1] /\
  fst (models.Customer_Delete Rows.alice
         (snd (models.Customer_Delete Rows.alice Rows.registry))) =
    Returned (gorm.mkDB None 0, None).
Proof.
  assert (Hid : gorm.ID (models.Customer_Model Rows.alice) <> 0%N)
    by discriminate.
  split; [exact Hid|]. split; [reflexivity|].
  destruct (Customer_Delete_twice_and_frame Rows.alice Rows.registry Hid)
    as (_ & _ & Hvm & _ & Hsecond & _).
  split; [exact Hvm | exact Hsecond].
Defined.

(** Deleting a customer value that has no id. *)
Lemma Customer_Delete_refused_without_id_witness :
  gorm.ID (models.Customer_Model models.zero_Customer) = 0%N /\
  models.Customer_Delete models.zero_Customer Rows.registry =
  (Returned (gorm.mkDB (Some gorm.ErrMissingWhereClause) 0,
             Some gorm.ErrMissingWhereClause), Rows.registry).
Proof.
  split; [reflexivity|].
  apply (Customer_Delete_refused_without_id models.zero_Customer Rows.registry
           eq_refl).
Defined.

(** Rotating the key of machine 7 after the machine was deleted. *)
Lemma SSHPublicKey_Update_after_machine_Delete_witness :
  gorm.ID (models.VirtualMachine_Model Rows.web1) <> 0%N /\
  fst (models.SSHPublicKey_Update Rows.key7 (list_byte_of_string "ssh-rsa CCCC") []
         (snd (models.VirtualMachine_Delete Rows.web1 Rows.registry))) =
    fst (models.SSHPublicKey_Update Rows.key7 (list_byte_of_string "ssh-rsa CCCC") []
           Rows.registry) /\
  map models.Key
    (models.ssh_public_keys
       (snd (models.SSHPublicKey_Update Rows.key7
               (list_byte_of_string "ssh-rsa CCCC") []
               (snd (models.VirtualMachine_Delete Rows.web1 Rows.registry))))) =
  map models.Key
    (models.ssh_public_keys
       (snd (models.SSHPublicKey_Update Rows.key7
               (list_byte_of_string "ssh-rsa CCCC") [] Rows.registry))).
Proof.
  assert (Hid : gorm.ID (models.VirtualMachine_Model Rows.web1) <> 0%N)
    by discriminate.
  split; [exact Hid|].
  exact (SSHPublicKey_Update_after_machine_Delete Rows.web1 Rows.key7
           (list_byte_of_string "ssh-rsa CCCC") [] Rows.registry Hid).
Defined.

End RepositoryInstances.
